(** * WeatherFunction: the HTTP handler and its normalization, verified

    A shallow embedding of [backend/WeatherFunction/__init__.py]: the
    handler [main], the two fetch helpers, [_normalize] and [_error].

    Modelling conventions.
    - A Python [str] is held as its UTF-8 encoding, a [string] of bytes: a
      character is a code point, one to four bytes, and the literals of this
      file are the encodings of what they show.  Equality, order and
      containment of encodings are those of the texts; slicing and trimming
      work character by character.  Trimming knows every code point of
      [str.isspace]; the case mapping of [str.capitalize] is the Unicode
      table of the runtime and is a parameter ([PyStr]).
    - A JSON number is an [int] ([NInt]) or a finite [float] ([NFloat]); a
      finite float is an exact rational, so comparisons and [round] are
      computed on [Q] without loss.  [round(x, 1)] of a float is held as the
      decimal it denotes.  NaN and the infinities are not modelled.
    - A [dict] keeps insertion order: it is an association list whose lookup
      takes the first binding of a key.
    - An exception is one of three classes, the ones [main] tells apart:
      [Timeout], any other [RequestException], and [PyError] for everything
      else (KeyError, TypeError, IndexError, AttributeError, ValueError).
    - Logging has no effect on the result and is left out. *)

From Stdlib Require Import ZArith QArith Qround List String Ascii Bool Lia.
From Stdlib Require Import Sorted Permutation DecimalString OrdersEx RelationClasses.
Import ListNotations.

Local Open Scope Z_scope.
Local Open Scope string_scope.
Local Open Scope list_scope.

(** ** Exceptions and fallible computations *)

Inductive exn : Type :=
| Timeout
| RequestException
| PyError.

Inductive result (A : Type) : Type :=
| Ok (a : A)
| Raise (e : exn).

Arguments Ok {A} a.
Arguments Raise {A} e.

Definition bind {A B : Type} (m : result A) (k : A -> result B) : result B :=
  match m with
  | Ok a => k a
  | Raise e => Raise e
  end.

Notation "x <- m ;; k" := (bind m (fun x => k))
  (at level 61, m at next level, right associativity).

Fixpoint mapM {A B : Type} (f : A -> result B) (l : list A) : result (list B) :=
  match l with
  | [] => Ok []
  | x :: l' => y <- f x ;; ys <- mapM f l' ;; Ok (y :: ys)
  end.

(** ** Python values *)

Inductive number : Type :=
| NInt (z : Z)
| NFloat (q : Q).

#[warnings="-register-all"]
Inductive json : Type :=
| JNull
| JBool (b : bool)
| JNum (n : number)
| JStr (s : string)
| JArr (l : list json)
| JObj (kvs : list (string * json)).

Definition dict : Type := list (string * json).

(** ** Strings *)

Definition is_empty (s : string) : bool :=
  match s with
  | EmptyString => true
  | String _ _ => false
  end.

Definition byte (a : ascii) : N := N_of_ascii a.

(** A byte that continues a character: [10xxxxxx]. *)
Definition is_continuation (a : ascii) : bool :=
  ((128 <=? byte a) && (byte a <? 192))%N.

Definition starts_continuation (s : string) : bool :=
  match s with
  | EmptyString => false
  | String a _ => is_continuation a
  end.

(** [s[:n]]: the first [n] characters, each with the bytes that continue
    it. *)
Fixpoint take_chars (n : nat) (s : string) : string :=
  match s with
  | EmptyString => EmptyString
  | String a s' =>
      if is_continuation a then String a (take_chars n s')
      else match n with
           | O => EmptyString
           | S n' => String a (take_chars n' s')
           end
  end.

(** The characters of a string, one by one. *)
Fixpoint chars_of (s : string) : list string :=
  match s with
  | EmptyString => []
  | String a s' =>
      match chars_of s' with
      | c :: cs =>
          if starts_continuation s' then String a c :: cs
          else String a EmptyString :: c :: cs
      | [] => [String a EmptyString]
      end
  end.

(** [str.isspace] on the encoding of a character of one, two or three bytes:
    U+0009 to U+000D, U+001C to U+0020; U+0085 and U+00A0; U+1680, U+2000 to
    U+200A, U+2028, U+2029, U+202F, U+205F and U+3000.  No character of four
    bytes is whitespace. *)
Definition space1 (a : ascii) : bool :=
  ((9 <=? byte a) && (byte a <=? 13) || (28 <=? byte a) && (byte a <=? 32))%N.

Definition space2 (a b : ascii) : bool :=
  ((byte a =? 194) && ((byte b =? 133) || (byte b =? 160)))%N.

Definition space3 (a b c : ascii) : bool :=
  ((byte a =? 225) && (byte b =? 154) && (byte c =? 128) ||
   (byte a =? 226) && (byte b =? 128) &&
     ((128 <=? byte c) && (byte c <=? 138) ||
      (byte c =? 168) || (byte c =? 169) || (byte c =? 175)) ||
   (byte a =? 226) && (byte b =? 129) && (byte c =? 159) ||
   (byte a =? 227) && (byte b =? 128) && (byte c =? 128))%N.

(** [str.lstrip()]: the string from its first character that is not
    whitespace. *)
Fixpoint lstrip (s : string) : string :=
  match s with
  | EmptyString => EmptyString
  | String a s1 =>
      if space1 a then lstrip s1
      else match s1 with
           | EmptyString => s
           | String b s2 =>
               if space2 a b then lstrip s2
               else match s2 with
                    | EmptyString => s
                    | String c s3 => if space3 a b c then lstrip s3 else s
                    end
           end
  end.

(** [str.rstrip()]: the string up to the point from which only whitespace
    follows. *)
Fixpoint rstrip (s : string) : string :=
  match s with
  | EmptyString => EmptyString
  | String a s' => if is_empty (lstrip s) then EmptyString else String a (rstrip s')
  end.

(** [str.strip()] with no argument. *)
Definition strip (s : string) : string := rstrip (lstrip s).

(** The string methods of the runtime that rest on its Unicode tables:
    [str.capitalize()]. *)
Class PyStr : Type := {
  str_capitalize : string -> string
}.

(** [sub in s] for two strings. *)
Fixpoint contains (sub s : string) : bool :=
  if prefix sub s then true
  else match s with
       | EmptyString => false
       | String _ s' => contains sub s'
       end.

(** ** Numbers *)

Definition num_val (n : number) : Q :=
  match n with
  | NInt z => inject_Z z
  | NFloat q => q
  end.

Definition num_ltb (a b : number) : bool := negb (Qle_bool (num_val b) (num_val a)).

(** [float.__round__()] without digits: the nearest integer, a tie going to
    the even neighbour. *)
Definition round_half_even (q : Q) : Z :=
  let n := Qnum q in
  let d := Zpos (Qden q) in
  let f := n / d in
  match (2 * (n mod d) ?= d)%Z with
  | Lt => f
  | Gt => f + 1
  | Eq => if Z.even f then f else f + 1
  end.

(** [round(x)]: an int is returned as it is. *)
Definition py_round (n : number) : Z :=
  match n with
  | NInt z => z
  | NFloat q => round_half_even q
  end.

(** [round(x, 1)]: an int is returned as it is, a float is rounded to one
    decimal and stays a float. *)
Definition py_round1 (n : number) : number :=
  match n with
  | NInt z => NInt z
  | NFloat q => NFloat (Qmake (round_half_even (q * inject_Z 10)) 10)
  end.

(** [min] and [max] keep the first of several equal extremes. *)
Definition py_min (l : list number) : result number :=
  match l with
  | [] => Raise PyError
  | x :: l' => Ok (fold_left (fun best y => if num_ltb y best then y else best) l' x)
  end.

Definition py_max (l : list number) : result number :=
  match l with
  | [] => Raise PyError
  | x :: l' => Ok (fold_left (fun best y => if num_ltb best y then y else best) l' x)
  end.

(** ** Operations on values *)

Fixpoint dict_get (d : dict) (k : string) : option json :=
  match d with
  | [] => None
  | (k', v) :: d' => if k' =? k then Some v else dict_get d' k
  end.

(** [d.get(k, default)] *)
Definition get_default (d : dict) (k : string) (default : json) : json :=
  match dict_get d k with
  | Some v => v
  | None => default
  end.

(** [d[k]] on a dict *)
Definition dict_item (d : dict) (k : string) : result json :=
  match dict_get d k with
  | Some v => Ok v
  | None => Raise PyError
  end.

(** [v[k]] with a string key: only a dict can be subscripted by it. *)
Definition getitem (v : json) (k : string) : result json :=
  match v with
  | JObj d => dict_item d k
  | _ => Raise PyError
  end.

(** [v[0]]: the head of a list, the first character of a string. *)
Definition getindex0 (v : json) : result json :=
  match v with
  | JArr (x :: _) => Ok x
  | JStr (String a s) => Ok (JStr (take_chars 1 (String a s)))
  | _ => Raise PyError
  end.

(** The items a [for] loop draws from a value: the elements of a list, the
    characters of a string, the keys of a dict. *)
Definition py_iter (v : json) : result (list json) :=
  match v with
  | JArr l => Ok l
  | JStr s => Ok (map JStr (chars_of s))
  | JObj kvs => Ok (map (fun kv => JStr (fst kv)) kvs)
  | _ => Raise PyError
  end.

(** ["12:00" in v]: substring of a string, membership in a list, key of a
    dict. *)
Definition py_in (sub : string) (v : json) : result bool :=
  match v with
  | JStr s => Ok (contains sub s)
  | JArr l => Ok (existsb (fun x => match x with JStr s => s =? sub | _ => false end) l)
  | JObj kvs => Ok (existsb (fun kv => fst kv =? sub) kvs)
  | _ => Raise PyError
  end.

(** A value used as a number: the numbers, and the booleans as 0 and 1. *)
Definition as_number (v : json) : result number :=
  match v with
  | JNum n => Ok n
  | JBool b => Ok (NInt (if b then 1 else 0))
  | _ => Raise PyError
  end.

(** [v.capitalize()]: a method of strings only. *)
Definition capitalize_of `{PyStr} (v : json) : result string :=
  match v with
  | JStr s => Ok (str_capitalize s)
  | _ => Raise PyError
  end.

(** ** Normalization: [_normalize] *)

(** [item["dt_txt"][:10]], used as a dict key: the slice of a string.  The
    slice of a list is a list, which cannot be a key. *)
Definition item_date (item : json) : result string :=
  t <- getitem item "dt_txt" ;;
  match t with
  | JStr s => Ok (take_chars 10 s)
  | _ => Raise PyError
  end.

(** [days.setdefault(date, []).append(item)] *)
Fixpoint setdefault_append (days : list (string * list json))
    (date : string) (item : json) : list (string * list json) :=
  match days with
  | [] => [(date, [item])]
  | (d, readings) :: rest =>
      if d =? date then (d, readings ++ [item]) :: rest
      else (d, readings) :: setdefault_append rest date item
  end.

(** The grouping loop, from the dict built so far. *)
Fixpoint group_loop (days : list (string * list json)) (items : list json)
    : result (list (string * list json)) :=
  match items with
  | [] => Ok days
  | item :: rest =>
      date <- item_date item ;;
      group_loop (setdefault_append days date item) rest
  end.

(** [sorted(days.items())].  The keys of a dict are distinct, so the order of
    two items is decided by their dates and the readings are never
    compared. *)
Fixpoint insert_item (x : string * list json) (l : list (string * list json))
    : list (string * list json) :=
  match l with
  | [] => [x]
  | y :: l' => if String.leb (fst x) (fst y) then x :: l else y :: insert_item x l'
  end.

Fixpoint sorted_items (l : list (string * list json)) : list (string * list json) :=
  match l with
  | [] => []
  | x :: l' => insert_item x (sorted_items l')
  end.

(** [readings[0]] *)
Definition first_reading (readings : list json) : result json :=
  match readings with
  | [] => Raise PyError
  | r :: _ => Ok r
  end.

(** [next((r for r in readings if "12:00" in r["dt_txt"]), default)] *)
Fixpoint next_noon (readings : list json) (default : json) : result json :=
  match readings with
  | [] => Ok default
  | r :: rest =>
      t <- getitem r "dt_txt" ;;
      b <- py_in "12:00" t ;;
      if b then Ok r else next_noon rest default
  end.

Definition temp_min (r : json) : result number :=
  m <- getitem r "main" ;; t <- getitem m "temp_min" ;; as_number t.

Definition temp_max (r : json) : result number :=
  m <- getitem r "main" ;; t <- getitem m "temp_max" ;; as_number t.

(** [v["weather"][0][field]] *)
Definition weather0 (v : json) (field : string) : result json :=
  w <- getitem v "weather" ;; w0 <- getindex0 w ;; getitem w0 field.

(** The dict appended for one date.  [min] over values that are not all
    numbers either fails in a comparison or returns a value that [round]
    rejects: both are a [PyError], as is a failed lookup in any reading. *)
Definition day_entry `{PyStr} (date : string) (readings : list json) : result json :=
  default <- first_reading readings ;;
  noon <- next_noon readings default ;;
  los <- mapM temp_min readings ;;
  lo <- py_min los ;;
  his <- mapM temp_max readings ;;
  hi <- py_max his ;;
  d <- weather0 noon "description" ;;
  desc <- capitalize_of d ;;
  icon <- weather0 noon "icon" ;;
  Ok (JObj [("date", JStr date);
            ("min", JNum (NInt (py_round lo)));
            ("max", JNum (NInt (py_round hi)));
            ("desc", JStr desc);
            ("icon", icon)]).

(** The loop over the sorted items, from the list built so far; it stops at
    five entries. *)
Fixpoint daily_loop `{PyStr} (daily_forecast : list json) (items : list (string * list json))
    : result (list json) :=
  match items with
  | [] => Ok daily_forecast
  | (date, readings) :: rest =>
      if (5 <=? List.length daily_forecast)%nat then Ok daily_forecast
      else
        entry <- day_entry date readings ;;
        daily_loop (daily_forecast ++ [entry]) rest
  end.

(** The forecast half of [_normalize]: lines 99 to 121 without [today]. *)
Definition forecast_days `{PyStr} (forecast : dict) : result (list json) :=
  items <- py_iter (get_default forecast "list" (JArr [])) ;;
  days <- group_loop [] items ;;
  daily_loop [] (sorted_items days).

(** The [now] dict. *)
Definition now_of `{PyStr} (current : dict) : result json :=
  m <- dict_item current "main" ;;
  t <- getitem m "temp" ;;
  temp <- as_number t ;;
  m1 <- dict_item current "main" ;;
  f <- getitem m1 "feels_like" ;;
  feels <- as_number f ;;
  d <- weather0 (JObj current) "description" ;;
  desc <- capitalize_of d ;;
  icon <- weather0 (JObj current) "icon" ;;
  m2 <- dict_item current "main" ;;
  humidity <- getitem m2 "humidity" ;;
  w <- dict_item current "wind" ;;
  s <- getitem w "speed" ;;
  speed <- as_number s ;;
  Ok (JObj [("temp", JNum (NInt (py_round temp)));
            ("feels_like", JNum (NInt (py_round feels)));
            ("desc", JStr desc);
            ("icon", icon);
            ("humidity", humidity);
            ("wind", JNum (py_round1 speed))]).

Definition _normalize `{PyStr} (current forecast : dict) : result json :=
  now <- now_of current ;;
  items <- py_iter (get_default forecast "list" (JArr [])) ;;
  days <- group_loop [] items ;;
  today <- dict_item current "dt" ;;
  daily_forecast <- daily_loop [] (sorted_items days) ;;
  name <- dict_item current "name" ;;
  sys <- dict_item current "sys" ;;
  country <- getitem sys "country" ;;
  Ok (JObj [("city", name);
            ("country", country);
            ("now", now);
            ("forecast", JArr daily_forecast)]).

(** ** The handler: [main] *)

Definition OPENWEATHER_BASE : string := "https://api.openweathermap.org/data/2.5".
Definition TIMEOUT_SECONDS : Z := 8.

(** [func.HttpRequest]: the query parameters. *)
Record HttpRequest : Type := {
  params : list (string * string)
}.

(** [func.HttpResponse] *)
Record HttpResponse : Type := {
  body : string;
  status_code : Z;
  mimetype : string;
  headers : list (string * string)
}.

(** One call of [requests.get]: the URL, the query and the timeout. *)
Record http_call : Type := {
  call_url : string;
  call_params : list (string * json);
  call_timeout : Z
}.

(** What [requests.get] returns: the status and what [.json()] yields, the
    decoded document or the exception it raises. *)
Record Response : Type := {
  resp_status : Z;
  resp_json : result dict
}.

(** What the handler runs on and does not define: the string methods of the
    runtime, the upstream service, which answers a call given the calls made
    before it, [json.dumps], and the text [str] gives for a value that is not
    a string. *)
Class Platform : Type := {
  py_runtime :: PyStr;
  requests_get : list http_call -> http_call -> result Response;
  json_dumps : json -> string;
  str_of : json -> string
}.

Fixpoint assoc_get (l : list (string * string)) (k : string) (default : string) : string :=
  match l with
  | [] => default
  | (k', v) :: l' => if k' =? k then v else assoc_get l' k default
  end.

(** [resp.raise_for_status()]: an HTTPError, a RequestException, for a status
    from 400 to 599. *)
Definition raise_for_status (resp : Response) : result unit :=
  if ((400 <=? resp_status resp) && (resp_status resp <? 600))%Z
  then Raise RequestException
  else Ok tt.

(** The value an f-string puts in place of [{msg}]. *)
Definition format_value `{Platform} (v : json) : string :=
  match v with
  | JStr s => s
  | _ => str_of v
  end.

(** [v != 200] for the value of [current.get("cod")]: only a number equal to
    200 is equal to it. *)
Definition not_200 (v : json) : bool :=
  match v with
  | JNum n => negb (Qeq_bool (num_val n) (inject_Z 200))
  | _ => true
  end.

Definition _error `{Platform} (status : Z) (message : string) : HttpResponse :=
  {| body := json_dumps (JObj [("error", JStr message)]);
     status_code := status;
     mimetype := "application/json";
     headers := [("Access-Control-Allow-Origin", "*")] |}.

(** A fetch takes the calls made so far and returns them with its own. *)
Definition fetch `{Platform} (call : http_call) (log : list http_call)
    : result dict * list http_call :=
  (resp <- requests_get log call ;;
   _ <- raise_for_status resp ;;
   resp_json resp,
   log ++ [call]).

Definition current_call (city api_key : string) : http_call :=
  {| call_url := (OPENWEATHER_BASE ++ "/weather")%string;
     call_params := [("q", JStr city); ("appid", JStr api_key); ("units", JStr "metric")];
     call_timeout := TIMEOUT_SECONDS |}.

Definition forecast_call (city api_key : string) : http_call :=
  {| call_url := (OPENWEATHER_BASE ++ "/forecast")%string;
     call_params := [("q", JStr city); ("appid", JStr api_key); ("units", JStr "metric");
                     ("cnt", JNum (NInt 40))];
     call_timeout := TIMEOUT_SECONDS |}.

Definition _fetch_current `{Platform} (city api_key : string) (log : list http_call)
    : result dict * list http_call :=
  fetch (current_call city api_key) log.

Definition _fetch_forecast `{Platform} (city api_key : string) (log : list http_call)
    : result dict * list http_call :=
  fetch (forecast_call city api_key) log.

(** The [except] clauses of [main]: a timeout, any other RequestException;
    anything else leaves the handler. *)
Definition handle `{Platform} (e : exn) : result HttpResponse :=
  match e with
  | Timeout => Ok (_error 504 "Upstream API timed out. Please try again.")
  | RequestException => Ok (_error 502 "Failed to reach weather service.")
  | PyError => Raise PyError
  end.

(** [main] on a request, the environment and the calls made so far; it
    returns its response, or the exception that leaves it, and the calls
    made. *)
Definition main `{Platform} (req : HttpRequest) (environ : list (string * string))
    (log : list http_call) : result HttpResponse * list http_call :=
  let city := strip (assoc_get (params req) "city" "") in
  if is_empty city then
    (Ok (_error 400 "Missing required parameter: city"), log)
  else
    let api_key := assoc_get environ "OPENWEATHER_API_KEY" "" in
    if is_empty api_key then
      (Ok (_error 500 "Server configuration error: missing API key"), log)
    else
      match _fetch_current city api_key log with
      | (Raise e, log1) => (handle e, log1)
      | (Ok current, log1) =>
          match _fetch_forecast city api_key log1 with
          | (Raise e, log2) => (handle e, log2)
          | (Ok forecast, log2) =>
              if not_200 (get_default current "cod" JNull) then
                let msg := get_default current "message" (JStr "City not found") in
                (Ok (_error 404 ("OpenWeather error: " ++ format_value msg)%string), log2)
              else
                (payload <- _normalize current forecast ;;
                 Ok {| body := json_dumps payload;
                       status_code := 200;
                       mimetype := "application/json";
                       headers := [("Access-Control-Allow-Origin", "*")] |},
                 log2)
          end
      end.

(** ** The documents in the words of the specification

    What a document holds, said without running the code: membership in a
    dict, a field of an object, the characters a string starts with, the
    readings of a date, rounding as a relation.  The statements about
    [_normalize] are made with these, and the lemmas that lead from the code
    to them show that the accessors of the code read what they say. *)

(** The value a dict binds a key to: that of the first binding of the key. *)
Inductive member : dict -> string -> json -> Prop :=
| member_first (k : string) (x : json) (d : dict) : member ((k, x) :: d) k x
| member_later (k k' : string) (x y : json) (d : dict) :
    k' <> k -> member d k x -> member ((k', y) :: d) k x.

Definition absent (d : dict) (k : string) : Prop := forall x, ~ member d k x.

(** [v] is an object and [x] is its member [k]. *)
Definition field (v : json) (k : string) (x : json) : Prop :=
  exists d, v = JObj d /\ member d k x.

(** The number a value stands for: a number, or a boolean as 0 or 1. *)
Definition numeric (v : json) (n : number) : Prop :=
  v = JNum n \/ exists b : bool, v = JBool b /\ n = NInt (if b then 1 else 0).

(** The number of characters of a string. *)
Fixpoint char_count (s : string) : nat :=
  match s with
  | EmptyString => O
  | String a s' => if is_continuation a then char_count s' else S (char_count s')
  end.

(** [d] is the first [n] characters of [s], or all of [s] when it has
    fewer. *)
Definition first_chars (n : nat) (s d : string) : Prop :=
  exists rest,
    s = (d ++ rest)%string /\ starts_continuation rest = false /\
    (char_count d = n \/ (rest = "" /\ (char_count d < n)%nat)).

(** [sub] occurs in [s]. *)
Definition mentions (sub s : string) : Prop :=
  exists pre post, s = (pre ++ sub ++ post)%string.

Definition timestamp (r : json) (s : string) : Prop := field r "dt_txt" (JStr s).

(** A reading of date [d]: the first ten characters of its timestamp are
    [d]. *)
Definition dated_at (d : string) (r : json) : Prop :=
  exists s, timestamp r s /\ first_chars 10 s d.

Definition at_noon (r : json) : Prop :=
  exists s, timestamp r s /\ mentions "12:00" s.

(** The items that satisfy [P], in the order of the list. *)
Inductive picked (P : json -> Prop) : list json -> list json -> Prop :=
| picked_nil : picked P [] []
| picked_keep (x : json) (l l' : list json) :
    P x -> picked P l l' -> picked P (x :: l) (x :: l')
| picked_skip (x : json) (l l' : list json) :
    ~ P x -> picked P l l' -> picked P (x :: l) l'.

(** [r] is the first of [rs] that satisfies [P]. *)
Definition first_with (P : json -> Prop) (rs : list json) (r : json) : Prop :=
  exists pre post, rs = pre ++ r :: post /\ P r /\ Forall (fun x => ~ P x) pre.

(** The reading that describes a day: the first one at noon, and the first
    one when none is at noon. *)
Definition describes (rs : list json) (r : json) : Prop :=
  first_with at_noon rs r \/
  (Forall (fun x => ~ at_noon x) rs /\ exists rest, rs = r :: rest).

(** [w] is the first element of the [weather] of [r]. *)
Definition first_weather (r w : json) : Prop :=
  exists rest, field r "weather" (JArr (w :: rest)).

(** The temperature [k] of a reading: [r["main"][k]]. *)
Definition temp_of (k : string) (r : json) (n : number) : Prop :=
  exists m v, field r "main" m /\ field m k v /\ numeric v n.

Definition least_of (f : json -> number -> Prop) (rs : list json) (lo : number) : Prop :=
  (exists r, In r rs /\ f r lo) /\
  (forall r x, In r rs -> f r x -> (num_val lo <= num_val x)%Q).

Definition greatest_of (f : json -> number -> Prop) (rs : list json) (hi : number) : Prop :=
  (exists r, In r rs /\ f r hi) /\
  (forall r x, In r rs -> f r x -> (num_val x <= num_val hi)%Q).

(** [z] is an integer nearest to [q]. *)
Definition nearest_int (z : Z) (q : Q) : Prop :=
  (q - (1 # 2) <= inject_Z z /\ inject_Z z <= q + (1 # 2))%Q.

(** [z] is [q] rounded to the nearest integer, to the even one of the two
    when [q] lies half way. *)
Definition rounds_half_even (q : Q) (z : Z) : Prop :=
  (q - (1 # 2) < inject_Z z /\ inject_Z z < q + (1 # 2))%Q \/
  ((inject_Z z == q - (1 # 2) \/ inject_Z z == q + (1 # 2))%Q /\ Z.even z = true).

(** The same on a fraction [n / d]. *)
Definition half_even (n d z : Z) : Prop :=
  (2 * n - d < 2 * d * z < 2 * n + d) \/
  (2 * d * z = 2 * n - d /\ Z.even z = true) \/
  (2 * d * z = 2 * n + d /\ Z.even z = true).

(** The items of the forecast document: its [list], none when it has no
    [list]. *)
Definition forecast_list (forecast : dict) (items : list json) : Prop :=
  member forecast "list" (JArr items) \/ (absent forecast "list" /\ items = []).

(** The order [sorted] puts dates in: strings compared character by
    character. *)
Definition str_lt (a b : string) : Prop := String.compare a b = Lt.

(** The distinct dates of the items in ascending order. *)
Definition dates_in_order (items : list json) (dates : list string) : Prop :=
  StronglySorted str_lt dates /\
  (forall d, In d dates <-> exists r, In r items /\ dated_at d r).

Definition mk_entry (date : string) (lo hi : Z) (desc : string) (icon : json) : json :=
  JObj [("date", JStr date);
        ("min", JNum (NInt lo));
        ("max", JNum (NInt hi));
        ("desc", JStr desc);
        ("icon", icon)].

(** What the specification says of the entry of date [d], given the items of
    the forecast document: the readings of the date, the one that describes
    the day, the first weather of that one, the least and the greatest
    temperature of the readings, each rounded to the nearest integer (the
    even one at a tie), and the entry made of them. *)
Definition day_spec `{PyStr} (items : list json) (d : string) (entry : json) : Prop :=
  exists rs noon w raw icon lo hi zlo zhi,
    picked (dated_at d) items rs /\
    describes rs noon /\
    first_weather noon w /\
    field w "description" (JStr raw) /\
    field w "icon" icon /\
    least_of (temp_of "temp_min") rs lo /\
    greatest_of (temp_of "temp_max") rs hi /\
    (nearest_int zlo (num_val lo) /\ rounds_half_even (num_val lo) zlo) /\
    (nearest_int zhi (num_val hi) /\ rounds_half_even (num_val hi) zhi) /\
    entry = mk_entry d zlo zhi (str_capitalize raw) icon.

(** The code points [str.isspace] holds of, and their encodings. *)
Definition whitespace_code_points : list N :=
  [9; 10; 11; 12; 13; 28; 29; 30; 31; 32; 133; 160; 5760;
   8192; 8193; 8194; 8195; 8196; 8197; 8198; 8199; 8200; 8201; 8202;
   8232; 8233; 8239; 8287; 12288]%N.

(** The UTF-8 encoding of a code point. *)
Definition utf8 (cp : N) : string :=
  let b (n : N) := ascii_of_N n in
  (if cp <? 128 then String (b cp) EmptyString
   else if cp <? 2048 then
     String (b (192 + cp / 64)) (String (b (128 + cp mod 64)) EmptyString)
   else if cp <? 65536 then
     String (b (224 + cp / 4096))
       (String (b (128 + (cp / 64) mod 64)) (String (b (128 + cp mod 64)) EmptyString))
   else
     String (b (240 + cp / 262144))
       (String (b (128 + (cp / 4096) mod 64))
          (String (b (128 + (cp / 64) mod 64)) (String (b (128 + cp mod 64)) EmptyString))))%N.

Definition whitespace_chars : list string := map utf8 whitespace_code_points.

(** A string made of whitespace characters only; the empty string is. *)
Inductive whitespace_only : string -> Prop :=
| whitespace_nil : whitespace_only EmptyString
| whitespace_cons (w s : string) :
    In w whitespace_chars -> whitespace_only s -> whitespace_only (w ++ s).

Definition starts_with_space (s : string) : Prop :=
  exists w rest, In w whitespace_chars /\ s = (w ++ rest)%string.

Definition ends_with_space (s : string) : Prop :=
  exists w pre, In w whitespace_chars /\ s = (pre ++ w)%string.

(** [t] is [s] without the whitespace at its two ends. *)
Definition trimmed_of (s t : string) : Prop :=
  (exists l r, whitespace_only l /\ whitespace_only r /\ s = (l ++ t ++ r)%string) /\
  ~ starts_with_space t /\ ~ ends_with_space t.












(** ** Notions the statements use *)

Definition date_is (d : string) (item : json) : bool :=
  match item_date item with
  | Ok d' => d' =? d
  | Raise _ => false
  end.

(** The dates of the items that have one, in the order of the document. *)
Definition item_dates (items : list json) : list string :=
  flat_map (fun item => match item_date item with Ok d => [d] | Raise _ => [] end) items.

Definition distinct_dates (items : list json) : list string :=
  nodup string_dec (item_dates items).

(** [day_entry] on an item of the sorted dict. *)
Definition entry_of `{PyStr} (p : string * list json) : result json := day_entry (fst p) (snd p).

(** What the grouping loop keeps true of the dict [days] after the items
    [seen]: one key per date met, bound to the items of that date in the order
    they came. *)
Definition grouped (seen : list json) (days : list (string * list json)) : Prop :=
  NoDup (map fst days) /\
  (forall d rs, In (d, rs) days -> rs = filter (date_is d) seen) /\
  (forall d, In d (map fst days) <-> In d (item_dates seen)).

Definition has_noon (r : json) : bool :=
  match getitem r "dt_txt" with
  | Ok (JStr s) => contains "12:00" s
  | _ => false
  end.

(** The reading a day is described by: the first one at noon, or else the
    first one. *)
Definition noon_pick (readings : list json) : option json :=
  match find has_noon readings with
  | Some r => Some r
  | None => hd_error readings
  end.

Definition is_min_of (x : number) (l : list number) : Prop :=
  In x l /\ Forall (fun y => (num_val x <= num_val y)%Q) l.

Definition is_max_of (x : number) (l : list number) : Prop :=
  In x l /\ Forall (fun y => (num_val y <= num_val x)%Q) l.

(** The entry the code builds for date [d], given all the items of the
    forecast document. *)
Definition day_computed `{PyStr} (items : list json) (d : string) (entry : json) : Prop :=
  let readings := filter (date_is d) items in
  exists noon los his lo hi raw icon,
    noon_pick readings = Some noon /\
    weather0 noon "description" = Ok (JStr raw) /\
    weather0 noon "icon" = Ok icon /\
    mapM temp_min readings = Ok los /\ py_min los = Ok lo /\
    mapM temp_max readings = Ok his /\ py_max his = Ok hi /\
    entry = mk_entry d (py_round lo) (py_round hi) (str_capitalize raw) icon.

(** A reading with all that [_normalize] may read of it. *)
Definition well_formed_reading (r : json) : Prop :=
  exists s lo hi desc icon,
    getitem r "dt_txt" = Ok (JStr s) /\
    temp_min r = Ok lo /\
    temp_max r = Ok hi /\
    weather0 r "description" = Ok (JStr desc) /\
    weather0 r "icon" = Ok icon.

Definition mk_payload (name country now : json) (daily_forecast : list json) : json :=
  JObj [("city", name);
        ("country", country);
        ("now", now);
        ("forecast", JArr daily_forecast)].

(** [current["sys"]["country"]] *)
Definition country_of (current : dict) : result json :=
  sys <- dict_item current "sys" ;; getitem sys "country".

Definition entry_date (e : json) : option string :=
  match getitem e "date" with
  | Ok (JStr d) => Some d
  | _ => None
  end.

Definition entry_dates (days : list json) : list (option string) := map entry_date days.

(** The city and the key [main] works with. *)
Definition city_of (req : HttpRequest) : string := strip (assoc_get (params req) "city" "").

Definition api_key_of (environ : list (string * string)) : string :=
  assoc_get environ "OPENWEATHER_API_KEY" "".

(** What [main] answers once both documents are fetched. *)
Definition respond `{Platform} (current forecast : dict) : result HttpResponse :=
  if not_200 (get_default current "cod" JNull) then
    Ok (_error 404 ("OpenWeather error: " ++
                    format_value (get_default current "message" (JStr "City not found")))%string)
  else
    payload <- _normalize current forecast ;;
    Ok {| body := json_dumps payload;
          status_code := 200;
          mimetype := "application/json";
          headers := [("Access-Control-Allow-Origin", "*")] |}.


(** ** Fixtures *)

Definition quote : string := String (ascii_of_nat 34) EmptyString.

Definition Z_to_string (z : Z) : string := NilZero.string_of_int (Z.to_int z).

(** A serializer to run the handler with: exact on integers and on strings
    that need no escape; a float is written as its fraction. *)
Fixpoint dumps (v : json) : string :=
  match v with
  | JNull => "null"
  | JBool b => if b then "true" else "false"
  | JNum (NInt z) => Z_to_string z
  | JNum (NFloat q) => (Z_to_string (Qnum q) ++ "/" ++ Z_to_string (Zpos (Qden q)))%string
  | JStr s => (quote ++ s ++ quote)%string
  | JArr l =>
      ("[" ++ (fix elems (l : list json) : string :=
                 match l with
                 | [] => ""
                 | [x] => dumps x
                 | x :: l' => dumps x ++ ", " ++ elems l'
                 end) l ++ "]")%string
  | JObj kvs =>
      ("{" ++ (fix members (kvs : list (string * json)) : string :=
                 match kvs with
                 | [] => ""
                 | [(k, x)] => quote ++ k ++ quote ++ ": " ++ dumps x
                 | (k, x) :: kvs' =>
                     quote ++ k ++ quote ++ ": " ++ dumps x ++ ", " ++ members kvs'
                 end) kvs ++ "}")%string
  end.

(** A runtime to run the code with: [str.capitalize] as it is on ASCII text,
    bytes from 128 on left as they are. *)
Definition to_upper (c : ascii) : ascii :=
  let n := nat_of_ascii c in
  if ((97 <=? n) && (n <=? 122))%nat then ascii_of_nat (n - 32) else c.

Definition to_lower (c : ascii) : ascii :=
  let n := nat_of_ascii c in
  if ((65 <=? n) && (n <=? 90))%nat then ascii_of_nat (n + 32) else c.

Fixpoint lower (s : string) : string :=
  match s with
  | EmptyString => EmptyString
  | String c s' => String (to_lower c) (lower s')
  end.

Definition ascii_capitalize (s : string) : string :=
  match s with
  | EmptyString => EmptyString
  | String c s' => String (to_upper c) (lower s')
  end.

Definition ascii_runtime : PyStr := {| str_capitalize := ascii_capitalize |}.

(** An upstream that answers the current-weather call with [cur] and any
    other call with [fc]. *)
Definition fixture_platform (cur fc : result Response) : Platform :=
  {| py_runtime := ascii_runtime;
     requests_get := fun _ call =>
       if call_url call =? (OPENWEATHER_BASE ++ "/weather")%string then cur else fc;
     json_dumps := dumps;
     str_of := dumps |}.

Definition weather_of (description icon : string) : json :=
  JArr [JObj [("id", JNum (NInt 500)); ("main", JStr "Rain");
              ("description", JStr description); ("icon", JStr icon)]].

Definition lima_current : dict :=
  [("coord", JObj [("lon", JNum (NFloat (-7703 # 100))); ("lat", JNum (NFloat (-1204 # 100)))]);
   ("weather", weather_of "light rain" "10d");
   ("main", JObj [("temp", JNum (NFloat (71 # 4)));
                  ("feels_like", JNum (NFloat (69 # 4)));
                  ("temp_min", JNum (NInt 17));
                  ("temp_max", JNum (NFloat (181 # 10)));
                  ("humidity", JNum (NInt 72))]);
   ("wind", JObj [("speed", JNum (NFloat (29 # 8)))]);
   ("dt", JNum (NInt 1714564800));
   ("sys", JObj [("country", JStr "PE")]);
   ("name", JStr "Lima");
   ("cod", JNum (NInt 200))].

(** One reading of the forecast: its timestamp and its two temperatures in
    tenths of a degree. *)
Definition reading_with (date time : string) (lo hi : Z) (description icon : string) : json :=
  JObj [("dt_txt", JStr (date ++ " " ++ time)%string);
        ("main", JObj [("temp", JNum (NFloat ((lo + 4) # 10)));
                       ("temp_min", JNum (NFloat (lo # 10)));
                       ("temp_max", JNum (NFloat (hi # 10)))]);
        ("weather", weather_of description icon)].

Definition reading (date time : string) (lo hi : Z) (description : string) : json :=
  reading_with date time lo hi description "04d".

Definition day_slots : list (string * Z * string * string) :=
  [("00:00:00", 0, "clear sky", "01n"); ("03:00:00", -5, "few clouds", "02n");
   ("06:00:00", 3, "scattered clouds", "03d"); ("09:00:00", 12, "broken clouds", "50d");
   ("12:00:00", 25, "overcast clouds", "04d"); ("15:00:00", 31, "light rain", "10d");
   ("18:00:00", 18, "moderate rain", "09n"); ("21:00:00", 7, "mist", "50n")].

Definition day_readings (date : string) (base : Z) : list json :=
  map (fun slot => match slot with
                   | (time, off, description, icon) =>
                       reading_with date time (base + off) (base + off + 9) description icon
                   end) day_slots.

(** Forty readings over five dates, the later dates first. *)
Definition five_day_items : list json :=
  day_readings "2024-05-03" 180 ++ day_readings "2024-05-01" 165 ++
  day_readings "2024-05-05" 150 ++ day_readings "2024-05-02" 171 ++
  day_readings "2024-05-04" 142.

Definition five_day_forecast : dict :=
  [("cod", JStr "200"); ("cnt", JNum (NInt 40)); ("list", JArr five_day_items)].

Definition ok_response (d : dict) : result Response :=
  Ok {| resp_status := 200; resp_json := Ok d |}.

Definition lima_request : HttpRequest := {| params := [("city", " Lima ")] |}.

Definition with_key : list (string * string) := [("OPENWEATHER_API_KEY", "k3y")].

Definition blank_request : HttpRequest := {| params := [("city", "  ")] |}.

Definition no_city_request : HttpRequest := {| params := [] |}.

Definition no_key : list (string * string) := [("PATH", "/usr/bin")].

Definition lima_platform : Platform :=
  fixture_platform (ok_response lima_current) (ok_response five_day_forecast).

(** The document the service sends for a city it does not know, here under a
    status that [raise_for_status] lets through. *)
Definition unknown_city : dict := [("cod", JStr "404"); ("message", JStr "city not found")].

Definition unknown_city_platform : Platform :=
  fixture_platform (ok_response unknown_city) (ok_response unknown_city).

(** What the two fixtures are to give. *)
Definition lima_now : json :=
  JObj [("temp", JNum (NInt 18));
        ("feels_like", JNum (NInt 17));
        ("desc", JStr "Light rain");
        ("icon", JStr "10d");
        ("humidity", JNum (NInt 72));
        ("wind", JNum (NFloat (36 # 10)))].

Definition lima_days : list json :=
  [mk_entry "2024-05-01" 16 20 "Overcast clouds" (JStr "04d");
   mk_entry "2024-05-02" 17 21 "Overcast clouds" (JStr "04d");
   mk_entry "2024-05-03" 18 22 "Overcast clouds" (JStr "04d");
   mk_entry "2024-05-04" 14 18 "Overcast clouds" (JStr "04d");
   mk_entry "2024-05-05" 14 19 "Overcast clouds" (JStr "04d")].

Definition lima_payload : json :=
  JObj [("city", JStr "Lima");
        ("country", JStr "PE");
        ("now", lima_now);
        ("forecast", JArr lima_days)].





(** A city between a tab and a no-break space, and one made of a no-break
    space, an ideographic space and a line separator. *)
Definition padded_request : HttpRequest :=
  {| params := [("city", String (ascii_of_nat 9) ("Lima" ++ utf8 160))] |}.

Definition unicode_blank_request : HttpRequest :=
  {| params := [("city", utf8 160 ++ utf8 12288 ++ utf8 8232)%string] |}.

(** Two readings of one date, and a forecast document without a list. *)
Definition two_readings : list json :=
  [reading "2024-05-01" "09:00:00" 150 171 "mist";
   reading "2024-05-01" "15:00:00" 162 204 "clear sky"].

Definition two_readings_forecast : dict := [("list", JArr two_readings)].

Definition no_list_forecast : dict := [("cod", JStr "200")].

(** Six dates, one reading each; the reading of the last date has no
    temperatures. *)
Definition six_day_items : list json :=
  [reading "2024-05-02" "12:00:00" 171 180 "mist";
   reading "2024-05-01" "12:00:00" 165 174 "fog";
   reading "2024-05-04" "12:00:00" 142 151 "haze";
   reading "2024-05-03" "12:00:00" 180 189 "smoke";
   reading "2024-05-05" "12:00:00" 150 159 "dust";
   JObj [("dt_txt", JStr "2024-05-06 12:00:00")]].

Definition six_day_forecast : dict := [("list", JArr six_day_items)].

(** The service answering with an HTTP error status, as it does for a city it
    does not know. *)
Definition http_404_platform : Platform :=
  fixture_platform (Ok {| resp_status := 404; resp_json := Ok unknown_city |})
                   (Ok {| resp_status := 404; resp_json := Ok unknown_city |}).

(** ** Notions of the further statements *)

(** An item whose date the grouping loop can take. *)
Definition dated (item : json) : bool :=
  match item_date item with
  | Ok _ => true
  | Raise _ => false
  end.

(** Dates in ascending order, by insertion. *)
Fixpoint insert_date (d : string) (l : list string) : list string :=
  match l with
  | [] => [d]
  | d' :: l' => if String.leb d d' then d :: l else d' :: insert_date d l'
  end.

Fixpoint sort_dates (l : list string) : list string :=
  match l with
  | [] => []
  | d :: l' => insert_date d (sort_dates l')
  end.

(** The dates that get an entry: the first five of the distinct dates in
    ascending order. *)
Definition first_five_dates (items : list json) : list string :=
  firstn 5 (sort_dates (distinct_dates items)).

(** The readings of the items that carry date [d]. *)
Definition readings_of (items : list json) (d : string) : list json :=
  filter (date_is d) items.

Definition entry_min (e : json) : option Z :=
  match getitem e "min" with
  | Ok (JNum (NInt z)) => Some z
  | _ => None
  end.

Definition entry_max (e : json) : option Z :=
  match getitem e "max" with
  | Ok (JNum (NInt z)) => Some z
  | _ => None
  end.

(** The date and the two temperatures of an entry. *)
Definition entry_range (e : json) : option string * option Z * option Z :=
  (entry_date e, entry_min e, entry_max e).

(** A computation that raises nothing but a [PyError]. *)
Definition only_py {A : Type} (m : result A) : Prop :=
  forall e, m = Raise e -> e = PyError.

(** The fields of the current-weather document [_normalize] subscripts. *)
Definition current_fields : list string := ["main"; "weather"; "wind"; "dt"; "name"; "sys"].

(** The calls [main] adds to those made before. *)
Definition new_calls `{Platform} (req : HttpRequest) (environ : list (string * string))
    (log : list http_call) : list http_call :=
  skipn (List.length log) (snd (main req environ log)).

(** The current-weather fixture without its [dt]. *)
Definition no_dt_current : dict :=
  filter (fun kv => negb (fst kv =? "dt")) lima_current.

Definition no_dt_platform : Platform :=
  fixture_platform (ok_response no_dt_current) (ok_response five_day_forecast).

(** The forty readings with the dates in another order. *)
Definition five_day_items_reordered : list json :=
  rev five_day_items.

Definition five_day_forecast_reordered : dict := [("list", JArr five_day_items_reordered)].

Definition reordered_payload : json :=
  Eval vm_compute in
    match @_normalize ascii_runtime lima_current five_day_forecast_reordered with
    | Ok payload => payload
    | Raise _ => JNull
    end.

(** The service answering with a status that is no error. *)
Definition not_modified : Response := {| resp_status := 304; resp_json := Ok lima_current |}.

Definition not_modified_platform : Platform :=
  fixture_platform (Ok not_modified) (ok_response five_day_forecast).

Definition not_found : Response := {| resp_status := 404; resp_json := Ok unknown_city |}.

(** The dict of the grouping loop on the forty readings. *)
Definition five_day_groups : list (string * list json) :=
  match group_loop [] five_day_items with
  | Ok days => days
  | Raise _ => []
  end.


(** * Proofs *)

(** ** Fallible computations *)

Lemma bind_ok {A B : Type} (m : result A) (k : A -> result B) (b : B) :
  bind m k = Ok b -> exists a, m = Ok a /\ k a = Ok b.
Proof.
  destruct m as [a|e]; simpl; intro H; [eauto | discriminate].
Qed.

(** Splits a hypothesis [x <- m ;; k = Ok b] into its two halves. *)
Tactic Notation "bind_inv" hyp(H) "as" ident(a) ident(Ha) :=
  apply bind_ok in H; destruct H as (a & Ha & H).

Tactic Notation "bind_inv" hyp(H) :=
  let a := fresh "a" in
  let Ha := fresh "Ha" in
  bind_inv H as a Ha.

Lemma mapM_Forall2 {A B : Type} (f : A -> result B) (l : list A) (ys : list B) :
  mapM f l = Ok ys -> Forall2 (fun x y => f x = Ok y) l ys.
Proof.
  revert ys; induction l as [|x l IH]; simpl; intros ys H.
  - injection H as <-. constructor.
  - bind_inv H. bind_inv H. injection H as <-. constructor; auto.
Qed.

Lemma mapM_app {A B : Type} (f : A -> result B) (l1 l2 : list A) :
  mapM f (l1 ++ l2) = (ys1 <- mapM f l1 ;; ys2 <- mapM f l2 ;; Ok (ys1 ++ ys2)).
Proof.
  induction l1 as [|x l1 IH]; simpl.
  - destruct (mapM f l2); reflexivity.
  - destruct (f x); simpl; [|reflexivity].
    rewrite IH. destruct (mapM f l1); simpl; [|reflexivity].
    destruct (mapM f l2); reflexivity.
Qed.

(** ** Rounding *)

Lemma half_even_cases (n d : Z) :
  0 < d ->
  let f := n / d in
  let z := match (2 * (n mod d) ?= d)%Z with
           | Lt => f
           | Gt => f + 1
           | Eq => if Z.even f then f else f + 1
           end in
  (2 * n - d < 2 * d * z < 2 * n + d) \/
  (2 * d * z = 2 * n - d /\ Z.even z = true) \/
  (2 * d * z = 2 * n + d /\ Z.even z = true).
Proof.
  intros Hd f z.
  pose proof (Z.div_mod n d ltac:(lia)) as Hdm.
  pose proof (Z.mod_pos_bound n d Hd) as Hr.
  fold f in Hdm. subst z.
  destruct (Z.compare_spec (2 * (n mod d)) d) as [He|Hl|Hg].
  - right. destruct (Z.even f) eqn:Hev.
    + left. split; [nia | exact Hev].
    + right. split; [nia|].
      rewrite Z.even_add, Hev. reflexivity.
  - left. nia.
  - left. nia.
Qed.

Lemma round_half_even_cases (q : Q) :
  let n := Qnum q in
  let d := Zpos (Qden q) in
  let z := round_half_even q in
  (2 * n - d < 2 * d * z < 2 * n + d) \/
  (2 * d * z = 2 * n - d /\ Z.even z = true) \/
  (2 * d * z = 2 * n + d /\ Z.even z = true).
Proof.
  apply half_even_cases. reflexivity.
Qed.

Lemma round_half_even_nearest (q : Q) : nearest_int (round_half_even q) q.
Proof.
  pose proof (round_half_even_cases q) as H. cbv zeta in H.
  set (z := round_half_even q) in *. clearbody z.
  destruct q as [n d]. unfold nearest_int, Qle, Qminus, Qplus, Qopp, inject_Z.
  cbn [Qnum Qden] in *. rewrite ?Pos2Z.inj_mul. split; nia.
Qed.

Lemma round_half_even_mono (p q : Q) :
  (p <= q)%Q -> round_half_even p <= round_half_even q.
Proof.
  intro Hle.
  pose proof (round_half_even_cases p) as Hp.
  pose proof (round_half_even_cases q) as Hq.
  cbv zeta in Hp, Hq.
  set (zp := round_half_even p) in *. set (zq := round_half_even q) in *.
  clearbody zp zq. unfold Qle in Hle.
  destruct p as [n1 d1], q as [n2 d2]. cbn [Qnum Qden] in *.
  destruct (Z_le_gt_dec zp zq) as [|Hgt]; [assumption|exfalso].
  assert (Hup : 2 * Zpos d1 * zp <= 2 * n1 + Zpos d1) by lia.
  assert (Hlo : 2 * n2 - Zpos d2 <= 2 * Zpos d2 * zq) by lia.
  assert (H1 : 2 * Zpos d1 * Zpos d2 * zp <= 2 * n2 * Zpos d1 + Zpos d1 * Zpos d2) by nia.
  assert (H2 : 2 * n2 * Zpos d1 - Zpos d1 * Zpos d2 <= 2 * Zpos d1 * Zpos d2 * zq) by nia.
  assert (Hz : zp = zq + 1) by nia.
  assert (Ep : 2 * Zpos d1 * zp = 2 * n1 + Zpos d1) by nia.
  assert (Eq' : 2 * Zpos d2 * zq = 2 * n2 - Zpos d2) by nia.
  assert (Evp : Z.even zp = true) by (destruct Hp as [?|[[? ?]|[? ?]]]; [lia|lia|assumption]).
  assert (Evq : Z.even zq = true) by (destruct Hq as [?|[[? ?]|[? ?]]]; [lia|assumption|lia]).
  rewrite Hz, Z.even_add, Evq in Evp. discriminate.
Qed.

Lemma py_round_nearest (n : number) : nearest_int (py_round n) (num_val n).
Proof.
  destruct n as [z|q]; simpl.
  - unfold nearest_int, Qle, Qminus, Qplus, Qopp, inject_Z. cbn [Qnum Qden].
    rewrite ?Pos2Z.inj_mul. lia.
  - apply round_half_even_nearest.
Qed.

Lemma round_half_even_int (z : Z) : round_half_even (inject_Z z) = z.
Proof.
  unfold round_half_even, inject_Z. simpl.
  rewrite Z.mod_1_r, Z.div_1_r. reflexivity.
Qed.

Lemma py_round_mono (a b : number) :
  (num_val a <= num_val b)%Q -> py_round a <= py_round b.
Proof.
  intro H.
  assert (E : forall n, py_round n = round_half_even (num_val n)).
  { intros [z|q]; simpl; [symmetry; apply round_half_even_int | reflexivity]. }
  rewrite !E. apply round_half_even_mono. exact H.
Qed.

(** Rounding to the even neighbour, as a relation. *)

Lemma rounds_half_even_int (q : Q) (z : Z) :
  rounds_half_even q z <-> half_even (Qnum q) (Zpos (Qden q)) z.
Proof.
  destruct q as [n d].
  unfold rounds_half_even, half_even, Qlt, Qeq, Qminus, Qplus, Qopp, inject_Z.
  cbn [Qnum Qden]. rewrite ?Pos2Z.inj_mul.
  split.
  - intros [(H1 & H2)|([H|H] & Hev)]; [left | right; left | right; right]; try split;
      try exact Hev; nia.
  - intros [(H1 & H2)|[(H & Hev)|(H & Hev)]];
      [left; split | right; split; [left|exact Hev] | right; split; [right|exact Hev]]; nia.
Qed.

Lemma half_even_unique (n d z1 z2 : Z) :
  0 < d -> half_even n d z1 -> half_even n d z2 -> z1 = z2.
Proof.
  intros Hd H1 H2.
  assert (Hodd : forall a b, Z.even a = true -> Z.even b = true -> a = b + 1 -> False).
  { intros a b Ha Hb ->. rewrite Z.even_add, Hb in Ha. discriminate. }
  destruct H1 as [H1|[(H1 & E1)|(H1 & E1)]], H2 as [H2|[(H2 & E2)|(H2 & E2)]];
    try nia.
  - exfalso. apply (Hodd z2 z1 E2 E1). nia.
  - exfalso. apply (Hodd z1 z2 E1 E2). nia.
Qed.

Lemma round_half_even_rounds (q : Q) : rounds_half_even q (round_half_even q).
Proof. apply rounds_half_even_int, round_half_even_cases. Qed.

Lemma rounds_half_even_unique (q : Q) (z : Z) :
  rounds_half_even q z -> z = round_half_even q.
Proof.
  intro H. apply rounds_half_even_int in H.
  apply (half_even_unique (Qnum q) (Zpos (Qden q)));
    [reflexivity | exact H | apply round_half_even_cases].
Qed.

Lemma py_round_rounds (n : number) : rounds_half_even (num_val n) (py_round n).
Proof.
  destruct n as [z|q]; simpl.
  - rewrite <- (round_half_even_int z) at 2. apply round_half_even_rounds.
  - apply round_half_even_rounds.
Qed.

(** ** The order on dates *)

Lemma compare_as_OT (a b : string) : String.compare a b = String_as_OT.compare a b.
Proof.
  revert b; induction a as [|c a IH]; intros [|c' b];
    cbn [String.compare String_as_OT.compare]; trivial.
Qed.

Lemma str_lt_trans (a b c : string) : str_lt a b -> str_lt b c -> str_lt a c.
Proof.
  unfold str_lt. rewrite !compare_as_OT.
  apply (@StrictOrder_Transitive _ _ String_as_OT.lt_strorder).
Qed.

Lemma str_lt_irrefl (a : string) : ~ str_lt a a.
Proof.
  unfold str_lt. rewrite compare_as_OT.
  apply (@StrictOrder_Irreflexive _ _ String_as_OT.lt_strorder).
Qed.

Lemma leb_true_lt (a b : string) : String.leb a b = true -> a <> b -> str_lt a b.
Proof.
  unfold String.leb, str_lt. intros H Hne.
  destruct (String.compare a b) eqn:E; try reflexivity; try discriminate.
  apply String.compare_eq_iff in E. contradiction.
Qed.

Lemma leb_false_lt (a b : string) : String.leb a b = false -> str_lt b a.
Proof.
  unfold String.leb, str_lt. intro H.
  rewrite String.compare_antisym.
  destruct (String.compare a b); try discriminate. reflexivity.
Qed.

(** ** [min] and [max] *)

Lemma num_ltb_true (a b : number) : num_ltb a b = true -> (num_val a <= num_val b)%Q.
Proof.
  unfold num_ltb. intro H. apply negb_true_iff in H.
  apply Qlt_le_weak, Qnot_le_lt. intro Hle.
  apply Qle_bool_iff in Hle. congruence.
Qed.

Lemma num_ltb_false (a b : number) : num_ltb a b = false -> (num_val b <= num_val a)%Q.
Proof.
  unfold num_ltb. intro H. apply negb_false_iff in H.
  apply Qle_bool_iff. exact H.
Qed.

Lemma fold_min_spec (l : list number) (best : number) :
  let m := fold_left (fun best y => if num_ltb y best then y else best) l best in
  In m (best :: l) /\ (num_val m <= num_val best)%Q /\
  Forall (fun y => (num_val m <= num_val y)%Q) l.
Proof.
  revert best; induction l as [|y l IH]; intro best; simpl.
  - split; [auto|]. split; [apply Qle_refl | constructor].
  - destruct (IH (if num_ltb y best then y else best)) as (Hin & Hle & Hall).
    destruct (num_ltb y best) eqn:E.
    + apply num_ltb_true in E. split; [|split].
      * destruct Hin as [<-|Hin]; auto.
      * eapply Qle_trans; eassumption.
      * constructor; assumption.
    + apply num_ltb_false in E. split; [|split].
      * destruct Hin as [<-|Hin]; auto.
      * assumption.
      * constructor; [eapply Qle_trans; eassumption | assumption].
Qed.

Lemma fold_max_spec (l : list number) (best : number) :
  let m := fold_left (fun best y => if num_ltb best y then y else best) l best in
  In m (best :: l) /\ (num_val best <= num_val m)%Q /\
  Forall (fun y => (num_val y <= num_val m)%Q) l.
Proof.
  revert best; induction l as [|y l IH]; intro best; simpl.
  - split; [auto|]. split; [apply Qle_refl | constructor].
  - destruct (IH (if num_ltb best y then y else best)) as (Hin & Hle & Hall).
    destruct (num_ltb best y) eqn:E.
    + apply num_ltb_true in E. split; [|split].
      * destruct Hin as [<-|Hin]; auto.
      * eapply Qle_trans; eassumption.
      * constructor; assumption.
    + apply num_ltb_false in E. split; [|split].
      * destruct Hin as [<-|Hin]; auto.
      * assumption.
      * constructor; [eapply Qle_trans; eassumption | assumption].
Qed.

Lemma py_min_spec (l : list number) (lo : number) : py_min l = Ok lo -> is_min_of lo l.
Proof.
  destruct l as [|x l]; simpl; intro H; [discriminate|].
  injection H as <-.
  destruct (fold_min_spec l x) as (Hin & Hle & Hall).
  split; [exact Hin | constructor; assumption].
Qed.

Lemma py_max_spec (l : list number) (hi : number) : py_max l = Ok hi -> is_max_of hi l.
Proof.
  destruct l as [|x l]; simpl; intro H; [discriminate|].
  injection H as <-.
  destruct (fold_max_spec l x) as (Hin & Hle & Hall).
  split; [exact Hin | constructor; assumption].
Qed.

(** ** Strings: concatenation, characters, containment *)

Lemma sapp_nil_r (s : string) : (s ++ "")%string = s.
Proof. induction s as [|a s IH]; simpl; [reflexivity | rewrite IH; reflexivity]. Qed.

Lemma sapp_assoc (s t u : string) : ((s ++ t) ++ u)%string = (s ++ t ++ u)%string.
Proof. induction s as [|a s IH]; simpl; [reflexivity | rewrite IH; reflexivity]. Qed.

Lemma sapp_length (s t : string) :
  String.length (s ++ t) = (String.length s + String.length t)%nat.
Proof. induction s as [|a s IH]; simpl; [reflexivity | rewrite IH; reflexivity]. Qed.

Lemma prefix_app (sub s : string) :
  prefix sub s = true <-> exists post, s = (sub ++ post)%string.
Proof.
  revert s. induction sub as [|a sub IH]; intro s; simpl.
  - destruct s; split; eauto.
  - destruct s as [|b s]; simpl; [split; [discriminate | intros (post & E); discriminate]|].
    destruct (ascii_dec a b) as [->|Hne].
    + split.
      * intro H. apply IH in H. destruct H as (post & ->). exists post. reflexivity.
      * intros (post & E). apply IH. exists post. congruence.
    + split; [discriminate|]. intros (post & E). congruence.
Qed.

Lemma contains_mentions (sub s : string) : contains sub s = true <-> mentions sub s.
Proof.
  unfold mentions. split.
  - induction s as [|a s IH]; cbn [contains].
    + destruct (prefix sub "") eqn:E; [|discriminate]. intros _.
      apply prefix_app in E. destruct E as (post & E). exists "", post. exact E.
    + destruct (prefix sub (String a s)) eqn:E.
      * intros _. apply prefix_app in E. destruct E as (post & E). exists "", post. exact E.
      * intro H. destruct (IH H) as (pre & post & E').
        exists (String a pre), post. simpl. rewrite E'. reflexivity.
  - intros (pre & post & E). subst s. induction pre as [|a pre IH]; cbn [append].
    + assert (P : prefix sub (sub ++ post) = true) by (apply prefix_app; eauto).
      destruct (sub ++ post)%string; cbn [contains]; rewrite P; reflexivity.
    + cbn [contains]. rewrite IH.
      destruct (prefix sub (String a (pre ++ sub ++ post))); reflexivity.
Qed.

Lemma take_chars_first (n : nat) (s : string) : first_chars n s (take_chars n s).
Proof.
  unfold first_chars. revert n. induction s as [|a s IH]; intro n.
  - exists "". simpl. split; [reflexivity|]. split; [reflexivity|].
    destruct n; [left; reflexivity | right; split; [reflexivity | lia]].
  - cbn [take_chars]. destruct (is_continuation a) eqn:Ea.
    + destruct (IH n) as (rest & E & Hb & Hc). exists rest.
      cbn [append char_count]. rewrite Ea, <- E. auto.
    + destruct n as [|n].
      * exists (String a s). simpl. rewrite Ea. auto.
      * destruct (IH n) as (rest & E & Hb & Hc). exists rest.
        cbn [append char_count]. rewrite Ea, <- E.
        split; [reflexivity|]. split; [exact Hb|].
        destruct Hc as [Hc|(Hr & Hc)]; [left | right; split; [exact Hr|]]; lia.
Qed.

Lemma first_chars_take (n : nat) (s d : string) : first_chars n s d -> d = take_chars n s.
Proof.
  intros (rest & -> & Hb & Hc). revert n Hc.
  induction d as [|a d IH]; intros n Hc.
  - simpl in *. destruct rest as [|b rest]; [reflexivity|].
    simpl in Hb. cbn [take_chars]. rewrite Hb.
    destruct Hc as [<-|(E & _)]; [reflexivity | discriminate].
  - cbn [append take_chars char_count] in *. destruct (is_continuation a).
    + rewrite <- (IH n Hc). reflexivity.
    + destruct n as [|n]; [destruct Hc as [Hc|(_ & Hc)]; [discriminate | lia]|].
      rewrite <- (IH n); [reflexivity|].
      destruct Hc as [Hc|(Hr & Hc)]; [left | right; split; [exact Hr|]]; lia.
Qed.

(** ** Whitespace and trimming *)

Lemma whitespace_shape (w : string) :
  In w whitespace_chars ->
  (exists a, w = String a "" /\ space1 a = true) \/
  (exists a b, w = String a (String b "") /\ space1 a = false /\ space2 a b = true) \/
  (exists a b c, w = String a (String b (String c "")) /\
                 space1 a = false /\ space2 a b = false /\ space3 a b c = true).
Proof.
  intro H. vm_compute in H.
  repeat (destruct H as [<-|H];
          [first [ left; eexists; split; reflexivity
                 | right; left; do 2 eexists; repeat split; reflexivity
                 | right; right; do 3 eexists; repeat split; reflexivity ]|]).
  destruct H.
Qed.

Lemma byte_value (a : ascii) (n : N) : byte a = n -> a = ascii_of_N n.
Proof. intros <-. unfold byte. symmetry. apply ascii_N_embedding. Qed.

Ltac in_whitespace := solve [vm_compute; repeat first [left; reflexivity | right]].

Lemma space1_In (a : ascii) : space1 a = true -> In (String a "") whitespace_chars.
Proof.
  destruct a as [[] [] [] [] [] [] [] []]; intro H; vm_compute in H;
    try discriminate H; in_whitespace.
Qed.

Lemma space2_In (a b : ascii) : space2 a b = true -> In (String a (String b "")) whitespace_chars.
Proof.
  unfold space2. intro H. apply andb_true_iff in H. destruct H as (Ha & Hb).
  apply N.eqb_eq, byte_value in Ha. subst a.
  apply orb_true_iff in Hb.
  destruct Hb as [Hb|Hb]; apply N.eqb_eq, byte_value in Hb; subst b; in_whitespace.
Qed.

Lemma space3_In (a b c : ascii) :
  space3 a b c = true -> In (String a (String b (String c ""))) whitespace_chars.
Proof.
  unfold space3. intro H.
  repeat (apply orb_true_iff in H; destruct H as [H|H]);
    repeat (apply andb_true_iff in H; destruct H as (H & ?));
    repeat match goal with
           | E : (byte ?x =? _)%N = true |- _ => apply N.eqb_eq, byte_value in E; subst x
           end;
    try in_whitespace.
  destruct c as [[] [] [] [] [] [] [] []];
    match goal with E : _ = true |- _ => vm_compute in E; try discriminate E end;
    in_whitespace.
Qed.

Lemma starts_with_space_inv (s : string) :
  starts_with_space s ->
  match s with
  | EmptyString => False
  | String a s1 =>
      space1 a = true \/
      match s1 with
      | EmptyString => False
      | String b s2 =>
          (space1 a = false /\ space2 a b = true) \/
          match s2 with
          | EmptyString => False
          | String c s3 => space1 a = false /\ space2 a b = false /\ space3 a b c = true
          end
      end
  end.
Proof.
  intros (w & rest & Hin & ->).
  destruct (whitespace_shape w Hin)
    as [(a & -> & H1)|[(a & b & -> & H1 & H2)|(a & b & c & -> & H1 & H2 & H3)]];
    simpl; auto.
Qed.

Lemma lstrip_cases (s : string) :
  (lstrip s = s /\ ~ starts_with_space s) \/
  (exists w rest, In w whitespace_chars /\ s = (w ++ rest)%string /\ lstrip s = lstrip rest).
Proof.
  destruct s as [|a s1].
  { left. split; [reflexivity|]. intro H. exact (starts_with_space_inv _ H). }
  cbn [lstrip]. destruct (space1 a) eqn:E1.
  { right. exists (String a ""), s1. split; [apply space1_In, E1|]. split; reflexivity. }
  destruct s1 as [|b s2].
  { left. split; [reflexivity|]. intro H. apply starts_with_space_inv in H.
    destruct H as [H|[]]. congruence. }
  destruct (space2 a b) eqn:E2.
  { right. exists (String a (String b "")), s2. split; [apply space2_In, E2|].
    split; reflexivity. }
  destruct s2 as [|c s3].
  { left. split; [reflexivity|]. intro H. apply starts_with_space_inv in H.
    destruct H as [H|[(_ & H)|[]]]; congruence. }
  destruct (space3 a b c) eqn:E3.
  { right. exists (String a (String b (String c ""))), s3.
    split; [apply space3_In, E3|]. split; reflexivity. }
  left. split; [reflexivity|]. intro H. apply starts_with_space_inv in H.
  destruct H as [H|[(_ & H)|(_ & _ & H)]]; congruence.
Qed.

Lemma whitespace_nonempty (w : string) : In w whitespace_chars -> (0 < String.length w)%nat.
Proof.
  intro H. destruct (whitespace_shape w H)
    as [(a & -> & _)|[(a & b & -> & _)|(a & b & c & -> & _)]]; simpl; lia.
Qed.

(** [lstrip] takes away a run of whitespace characters and stops before a
    character that is not one. *)
Lemma lstrip_decomp (s : string) :
  exists l, whitespace_only l /\ s = (l ++ lstrip s)%string /\ ~ starts_with_space (lstrip s).
Proof.
  remember (String.length s) as n eqn:En. revert s En.
  induction n as [n IH] using lt_wf_ind. intros s En.
  destruct (lstrip_cases s) as [(E & Hno)|(w & rest & Hin & E & Hl)].
  - exists "". rewrite E. split; [constructor|]. split; [reflexivity | exact Hno].
  - pose proof (whitespace_nonempty w Hin) as Hw.
    destruct (IH (String.length rest)) with (s := rest) as (l & Hws & Hrest & Hno).
    { subst s n. rewrite sapp_length. lia. }
    { reflexivity. }
    exists (w ++ l)%string. rewrite Hl. split; [constructor; assumption|].
    split; [|exact Hno]. rewrite sapp_assoc, <- Hrest. exact E.
Qed.

Lemma whitespace_only_app (s t : string) :
  whitespace_only s -> whitespace_only t -> whitespace_only (s ++ t).
Proof.
  induction 1 as [|w s Hin _ IH]; intro Ht; [exact Ht|].
  rewrite sapp_assoc. constructor; auto.
Qed.

Lemma whitespace_only_lstrip (s : string) : whitespace_only s -> lstrip s = "".
Proof.
  induction 1 as [|w s Hin _ IH]; [reflexivity|].
  destruct (whitespace_shape w Hin)
    as [(a & -> & H1)|[(a & b & -> & H1 & H2)|(a & b & c & -> & H1 & H2 & H3)]];
    cbn [append lstrip]; rewrite ?H1, ?H2, ?H3; exact IH.
Qed.

Lemma lstrip_empty (s : string) : lstrip s = "" -> whitespace_only s.
Proof.
  intro E. destruct (lstrip_decomp s) as (l & Hws & Hs & _).
  rewrite E, sapp_nil_r in Hs. subst s. exact Hws.
Qed.

Lemma whitespace_only_starts (s : string) :
  whitespace_only s -> s = "" \/ starts_with_space s.
Proof.
  intros [|w s' Hin Hs]; [left; reflexivity | right; exists w, s'; auto].
Qed.

Lemma rstrip_decomp (s : string) :
  exists r, whitespace_only r /\ s = (rstrip s ++ r)%string.
Proof.
  induction s as [|a s (r & Hr & E)].
  - exists "". split; [constructor | reflexivity].
  - cbn [rstrip]. destruct (lstrip (String a s)) eqn:El; cbn [is_empty].
    + exists (String a s). split; [apply lstrip_empty, El | reflexivity].
    + exists r. split; [exact Hr|]. simpl. rewrite <- E. reflexivity.
Qed.

Lemma rstrip_no_space_suffix (s pre u : string) :
  rstrip s = (pre ++ u)%string -> u <> "" -> ~ whitespace_only u.
Proof.
  revert pre. induction s as [|a s IH]; intros pre E Hu Hws.
  - simpl in E. destruct pre; simpl in E; [congruence | discriminate].
  - cbn [rstrip] in E. destruct (lstrip (String a s)) eqn:El; cbn [is_empty] in E.
    + destruct pre; simpl in E; [congruence | discriminate].
    + destruct pre as [|b pre]; simpl in E.
      * destruct (rstrip_decomp s) as (r & Hr & Es).
        assert (Hall : whitespace_only (String a s)).
        { rewrite Es. change (String a (rstrip s ++ r)) with (String a (rstrip s) ++ r)%string.
          rewrite E. apply whitespace_only_app; assumption. }
        apply whitespace_only_lstrip in Hall. congruence.
      * injection E as _ E. exact (IH pre E Hu Hws).
Qed.

Lemma whitespace_char_only (w : string) : In w whitespace_chars -> whitespace_only w.
Proof.
  intro H. rewrite <- (sapp_nil_r w). constructor; [exact H | constructor].
Qed.

Lemma rstrip_ends (s : string) : ~ ends_with_space (rstrip s).
Proof.
  intros (w & pre & Hin & E).
  apply (rstrip_no_space_suffix s pre w E).
  - pose proof (whitespace_nonempty w Hin). destruct w; [simpl in *; lia | discriminate].
  - apply whitespace_char_only, Hin.
Qed.

Lemma rstrip_starts (s : string) : ~ starts_with_space s -> ~ starts_with_space (rstrip s).
Proof.
  intros Hno (w & rest & Hin & E). apply Hno.
  destruct (rstrip_decomp s) as (r & _ & Es).
  exists w, (rest ++ r)%string. split; [exact Hin|].
  rewrite Es, E, sapp_assoc. reflexivity.
Qed.

(** [strip] gives the string without the whitespace at its two ends. *)
Lemma strip_trimmed (s : string) : trimmed_of s (strip s).
Proof.
  unfold trimmed_of, strip.
  destruct (lstrip_decomp s) as (l & Hl & Es & Hno).
  destruct (rstrip_decomp (lstrip s)) as (r & Hr & Et).
  split; [|split; [apply rstrip_starts, Hno | apply rstrip_ends]].
  exists l, r. split; [exact Hl|]. split; [exact Hr|].
  rewrite <- Et. exact Es.
Qed.

(** A string is empty once trimmed exactly when it is made of whitespace
    only. *)
Lemma strip_empty_iff (s : string) : strip s = "" <-> whitespace_only s.
Proof.
  unfold strip. split.
  - intro E. destruct (lstrip_decomp s) as (l & Hl & Es & Hno).
    destruct (rstrip_decomp (lstrip s)) as (r & Hr & Et).
    rewrite E in Et. simpl in Et.
    destruct (whitespace_only_starts r Hr) as [->|Hs].
    + rewrite Et, sapp_nil_r in Es. subst s. exact Hl.
    + rewrite <- Et in Hs. contradiction.
  - intro H. rewrite (whitespace_only_lstrip _ H). reflexivity.
Qed.

(** ** Documents *)

Lemma member_dict_get (d : dict) (k : string) (x : json) :
  member d k x <-> dict_get d k = Some x.
Proof.
  split.
  - induction 1 as [k x d|k k' x y d Hne _ IH]; simpl.
    + rewrite String.eqb_refl. reflexivity.
    + destruct (String.eqb_spec k' k); [contradiction | exact IH].
  - induction d as [|[k' y] d IH]; simpl; [discriminate|].
    destruct (String.eqb_spec k' k) as [->|Hne].
    + intro E. injection E as ->. constructor.
    + intro E. constructor; auto.
Qed.

Lemma absent_dict_get (d : dict) (k : string) : absent d k <-> dict_get d k = None.
Proof.
  unfold absent. split.
  - intro H. destruct (dict_get d k) as [x|] eqn:E; [|reflexivity].
    apply member_dict_get in E. destruct (H x E).
  - intros E x Hm. apply member_dict_get in Hm. congruence.
Qed.

Lemma member_unique (d : dict) (k : string) (x y : json) :
  member d k x -> member d k y -> x = y.
Proof. rewrite !member_dict_get. congruence. Qed.

Lemma getitem_field (v : json) (k : string) (x : json) : getitem v k = Ok x <-> field v k x.
Proof.
  unfold field, getitem, dict_item. split.
  - destruct v as [| | | | |d]; try discriminate.
    destruct (dict_get d k) as [y|] eqn:E; [|discriminate].
    intro H. injection H as <-. exists d. split; [reflexivity | apply member_dict_get, E].
  - intros (d & -> & Hm). apply member_dict_get in Hm. rewrite Hm. reflexivity.
Qed.

Lemma dict_item_member (d : dict) (k : string) (x : json) :
  dict_item d k = Ok x <-> member d k x.
Proof.
  rewrite member_dict_get. unfold dict_item.
  destruct (dict_get d k); split; congruence.
Qed.

Lemma field_unique (v : json) (k : string) (x y : json) : field v k x -> field v k y -> x = y.
Proof. rewrite <- !getitem_field. congruence. Qed.

Lemma as_number_numeric (v : json) (n : number) : as_number v = Ok n <-> numeric v n.
Proof.
  unfold numeric. split.
  - destruct v; simpl; try discriminate; intro H; injection H as <-; eauto.
  - intros [->|(b & -> & ->)]; reflexivity.
Qed.

Lemma item_date_dated (r : json) (d : string) : item_date r = Ok d <-> dated_at d r.
Proof.
  unfold dated_at, timestamp, item_date. split.
  - intro H. bind_inv H as t Ht. destruct t; try discriminate. injection H as <-.
    exists s. split; [apply getitem_field, Ht | apply take_chars_first].
  - intros (s & Hs & Hd). apply getitem_field in Hs. rewrite Hs. cbn [bind].
    rewrite (first_chars_take _ _ _ Hd). reflexivity.
Qed.

Lemma date_is_dated (d : string) (r : json) : date_is d r = true <-> dated_at d r.
Proof.
  rewrite <- item_date_dated. unfold date_is. destruct (item_date r) as [d'|e].
  - rewrite String.eqb_eq. split; congruence.
  - split; discriminate.
Qed.

Lemma has_noon_at_noon (r : json) : has_noon r = true <-> at_noon r.
Proof.
  unfold has_noon, at_noon, timestamp. split.
  - destruct (getitem r "dt_txt") as [t|e] eqn:E; [|discriminate].
    destruct t; try discriminate. intro H.
    exists s. split; [apply getitem_field, E | apply contains_mentions, H].
  - intros (s & Hs & Hm). apply getitem_field in Hs. rewrite Hs.
    apply contains_mentions, Hm.
Qed.

Lemma filter_picked (d : string) (items : list json) :
  picked (dated_at d) items (filter (date_is d) items).
Proof.
  induction items as [|r items IH]; simpl; [constructor|].
  destruct (date_is d r) eqn:E.
  - constructor; [apply date_is_dated, E | exact IH].
  - constructor; [|exact IH]. rewrite <- date_is_dated. congruence.
Qed.

Lemma find_first_with (rs : list json) (r : json) :
  find has_noon rs = Some r -> first_with at_noon rs r.
Proof.
  induction rs as [|x rs IH]; simpl; [discriminate|].
  destruct (has_noon x) eqn:E.
  - intro H. injection H as <-. exists [], rs.
    split; [reflexivity|]. split; [apply has_noon_at_noon, E | constructor].
  - intro H. destruct (IH H) as (pre & post & -> & Hr & Hpre).
    exists (x :: pre), post. split; [reflexivity|]. split; [exact Hr|].
    constructor; [|exact Hpre]. rewrite <- has_noon_at_noon. congruence.
Qed.

Lemma find_none_noon (rs : list json) :
  find has_noon rs = None -> Forall (fun x => ~ at_noon x) rs.
Proof.
  induction rs as [|x rs IH]; simpl; [constructor|].
  destruct (has_noon x) eqn:E; [discriminate|].
  intro H. constructor; [|auto]. rewrite <- has_noon_at_noon. congruence.
Qed.

Lemma noon_pick_describes (rs : list json) (r : json) :
  noon_pick rs = Some r -> describes rs r.
Proof.
  unfold noon_pick, describes. destruct (find has_noon rs) as [x|] eqn:E.
  - intro H. injection H as <-. left. apply find_first_with, E.
  - intro H. right. split; [apply find_none_noon, E|].
    destruct rs as [|x rs]; [discriminate|]. injection H as <-. eauto.
Qed.

Lemma weather0_fields (v : json) (k1 k2 : string) (x1 x2 : json) :
  weather0 v k1 = Ok x1 -> weather0 v k2 = Ok x2 ->
  exists w, first_weather v w /\ field w k1 x1 /\ field w k2 x2.
Proof.
  unfold weather0, first_weather. intros H1 H2.
  bind_inv H1 as ws Hws. bind_inv H1 as w Hw.
  rewrite Hws in H2. cbn [bind] in H2. rewrite Hw in H2. cbn [bind] in H2.
  exists w. apply getitem_field in H1, H2, Hws.
  destruct ws as [| | |s|l|]; try discriminate.
  - destruct s; [discriminate|]. injection Hw as <-.
    destruct H1 as (d & E & _). discriminate.
  - destruct l as [|w' rest]; [discriminate|]. injection Hw as ->. eauto.
Qed.

Lemma temp_min_temp_of (r : json) (n : number) :
  temp_min r = Ok n <-> temp_of "temp_min" r n.
Proof.
  unfold temp_min, temp_of. split.
  - intro H. bind_inv H as m Hm. bind_inv H as v Hv.
    exists m, v. rewrite <- !getitem_field, <- as_number_numeric. auto.
  - intros (m & v & Hm & Hv & Hn).
    apply getitem_field in Hm, Hv. apply as_number_numeric in Hn.
    rewrite Hm. cbn [bind]. rewrite Hv. exact Hn.
Qed.

Lemma temp_max_temp_of (r : json) (n : number) :
  temp_max r = Ok n <-> temp_of "temp_max" r n.
Proof.
  unfold temp_max, temp_of. split.
  - intro H. bind_inv H as m Hm. bind_inv H as v Hv.
    exists m, v. rewrite <- !getitem_field, <- as_number_numeric. auto.
  - intros (m & v & Hm & Hv & Hn).
    apply getitem_field in Hm, Hv. apply as_number_numeric in Hn.
    rewrite Hm. cbn [bind]. rewrite Hv. exact Hn.
Qed.

Lemma numeric_unique (v : json) (n n' : number) : numeric v n -> numeric v n' -> n = n'.
Proof. rewrite <- !as_number_numeric. congruence. Qed.

Lemma temp_of_unique (k : string) (r : json) (n n' : number) :
  temp_of k r n -> temp_of k r n' -> n = n'.
Proof.
  intros (m & v & Hm & Hv & Hn) (m' & v' & Hm' & Hv' & Hn').
  rewrite (field_unique _ _ _ _ Hm' Hm) in Hv'.
  rewrite (field_unique _ _ _ _ Hv' Hv) in Hn'.
  exact (numeric_unique _ _ _ Hn Hn').
Qed.

Lemma forecast_list_iter (forecast : dict) (items : list json) :
  forecast_list forecast items ->
  py_iter (get_default forecast "list" (JArr [])) = Ok items.
Proof.
  unfold forecast_list, get_default. intros [Hm|(Ha & ->)].
  - apply member_dict_get in Hm. rewrite Hm. reflexivity.
  - apply absent_dict_get in Ha. rewrite Ha. reflexivity.
Qed.
(** ** Letters and the fixture runtime *)













(** ** Grouping by date *)

Lemma item_dates_app (l1 l2 : list json) :
  item_dates (l1 ++ l2) = item_dates l1 ++ item_dates l2.
Proof. unfold item_dates. apply flat_map_app. Qed.

Lemma item_dates_one (item : json) (d : string) :
  item_date item = Ok d -> item_dates [item] = [d].
Proof. unfold item_dates. simpl. intros ->. reflexivity. Qed.

Lemma date_is_true (d : string) (item : json) :
  date_is d item = true <-> item_date item = Ok d.
Proof.
  unfold date_is. destruct (item_date item) as [d'|e].
  - rewrite String.eqb_eq. split; congruence.
  - split; discriminate.
Qed.

Lemma item_dates_cons (x : json) (l : list json) :
  item_dates (x :: l) = item_dates [x] ++ item_dates l.
Proof. apply (item_dates_app [x] l). Qed.

Lemma filter_date_none (d : string) (l : list json) :
  ~ In d (item_dates l) -> filter (date_is d) l = [].
Proof.
  induction l as [|x l IH]; intro H; [reflexivity|].
  rewrite item_dates_cons in H. cbn [filter].
  destruct (date_is d x) eqn:E.
  - apply date_is_true in E. exfalso. apply H, in_or_app. left.
    rewrite (item_dates_one _ _ E). left; reflexivity.
  - apply IH. intro Hin. apply H, in_or_app. right; exact Hin.
Qed.

Lemma setdefault_append_keys (days : list (string * list json)) (d : string) (item : json) :
  map fst (setdefault_append days d item) =
  if in_dec string_dec d (map fst days) then map fst days else map fst days ++ [d].
Proof.
  induction days as [|[k rs] days IH]; simpl; [reflexivity|].
  destruct (String.eqb_spec k d) as [->|Hne]; simpl.
  - destruct (string_dec d d); [reflexivity | contradiction].
  - rewrite IH. destruct (string_dec k d); [contradiction|].
    destruct (in_dec string_dec d (map fst days)); reflexivity.
Qed.

Lemma setdefault_append_In (days : list (string * list json)) (d : string) (item : json)
    (k : string) (rs : list json) :
  NoDup (map fst days) ->
  In (k, rs) (setdefault_append days d item) ->
  (k <> d /\ In (k, rs) days) \/
  (k = d /\ exists rs0, In (d, rs0) days /\ rs = rs0 ++ [item]) \/
  (k = d /\ ~ In d (map fst days) /\ rs = [item]).
Proof.
  induction days as [|[k0 rs0] days IH]; simpl; intros Hnd Hin.
  - destruct Hin as [E|[]]. injection E as <- <-. right; right. auto.
  - inversion Hnd as [|? ? Hnot Hnd']; subst.
    destruct (String.eqb_spec k0 d) as [->|Hne]; simpl in Hin.
    + destruct Hin as [E|Hin].
      * injection E as <- <-. right; left. split; [reflexivity|]. eauto.
      * left. split; [|auto]. intros ->. apply Hnot.
        apply (in_map fst) in Hin. exact Hin.
    + destruct Hin as [E|Hin].
      * injection E as <- <-. left. auto.
      * destruct (IH Hnd' Hin) as [(Hk & H)|[(Hk & rs1 & H & Hrs)|(Hk & H & Hrs)]].
        -- left. auto.
        -- right; left. split; [exact Hk|]. exists rs1. auto.
        -- right; right. split; [exact Hk|]. split; [|exact Hrs].
           intros [E|Hin']; [contradiction | exact (H Hin')].
Qed.

Lemma grouped_step (seen : list json) (days : list (string * list json))
    (item : json) (d : string) :
  item_date item = Ok d ->
  grouped seen days ->
  grouped (seen ++ [item]) (setdefault_append days d item).
Proof.
  intros Hd (Hnd & Hrs & Hkeys).
  assert (Hf : forall k, filter (date_is k) (seen ++ [item]) =
                         filter (date_is k) seen ++ (if d =? k then [item] else [])).
  { intro k. rewrite filter_app. cbn [filter].
    replace (date_is k item) with (d =? k) by (unfold date_is; rewrite Hd; reflexivity).
    destruct (d =? k); reflexivity. }
  split; [|split].
  - rewrite setdefault_append_keys.
    destruct (in_dec string_dec d (map fst days)) as [Hin|Hnot]; [exact Hnd|].
    apply NoDup_app; [exact Hnd | repeat constructor; intros [] | ].
    intros x Hx [<-|[]]. contradiction.
  - intros k rs Hin. rewrite Hf.
    destruct (setdefault_append_In _ _ _ _ _ Hnd Hin)
      as [(Hk & H)|[(-> & rs0 & H & ->)|(-> & H & ->)]].
    + apply Hrs in H. destruct (String.eqb_spec d k); [congruence|].
      rewrite app_nil_r. exact H.
    + apply Hrs in H. rewrite String.eqb_refl. congruence.
    + rewrite String.eqb_refl, filter_date_none; [reflexivity|].
      rewrite <- Hkeys. exact H.
  - intro k. rewrite item_dates_app, (item_dates_one _ _ Hd), setdefault_append_keys.
    destruct (in_dec string_dec d (map fst days)) as [Hin|Hnot].
    + rewrite in_app_iff, <- Hkeys. simpl. split; [auto|].
      intros [H|[<-|[]]]; assumption.
    + rewrite !in_app_iff, <- Hkeys. reflexivity.
Qed.

Lemma grouped_nil : grouped [] [].
Proof.
  split; [constructor|]. split; [intros ? ? []|]. intro d; reflexivity.
Qed.

Lemma group_loop_grouped (items seen : list json) (days days' : list (string * list json)) :
  group_loop days items = Ok days' ->
  grouped seen days ->
  grouped (seen ++ items) days'.
Proof.
  revert seen days; induction items as [|item items IH]; simpl; intros seen days H Hg.
  - injection H as <-. rewrite app_nil_r. exact Hg.
  - bind_inv H.
    change (item :: items) with ([item] ++ items). rewrite app_assoc.
    eapply IH; [exact H|]. apply grouped_step; assumption.
Qed.

Lemma group_loop_dates (items : list json) (days days' : list (string * list json)) :
  group_loop days items = Ok days' ->
  mapM item_date items = Ok (item_dates items).
Proof.
  revert days; induction items as [|item items IH]; intros days H; [reflexivity|].
  cbn [group_loop] in H. bind_inv H.
  rewrite item_dates_cons, (item_dates_one _ _ Ha).
  cbn [mapM]. rewrite Ha, (IH _ H). reflexivity.
Qed.

(** ** Sorting the items *)

Lemma insert_item_perm (x : string * list json) (l : list (string * list json)) :
  Permutation (insert_item x l) (x :: l).
Proof.
  induction l as [|y l IH]; simpl; [reflexivity|].
  destruct (String.leb (fst x) (fst y)); [reflexivity|].
  rewrite IH. apply perm_swap.
Qed.

Lemma sorted_items_perm (l : list (string * list json)) : Permutation (sorted_items l) l.
Proof.
  induction l as [|x l IH]; simpl; [reflexivity|].
  rewrite insert_item_perm. constructor. exact IH.
Qed.

Lemma insert_item_sorted (x : string * list json) (l : list (string * list json)) :
  StronglySorted str_lt (map fst l) ->
  ~ In (fst x) (map fst l) ->
  StronglySorted str_lt (map fst (insert_item x l)).
Proof.
  induction l as [|y l IH]; simpl; intros Hs Hnot.
  - repeat constructor.
  - apply StronglySorted_inv in Hs. destruct Hs as (Hs & Hall).
    destruct (String.leb (fst x) (fst y)) eqn:E; simpl.
    + assert (Hxy : str_lt (fst x) (fst y)) by (apply leb_true_lt; auto).
      constructor; [constructor; assumption|].
      constructor; [exact Hxy|].
      eapply Forall_impl; [|exact Hall]. intros a Ha. eapply str_lt_trans; eassumption.
    + constructor; [apply IH; auto|].
      apply Forall_forall. intros k Hk.
      apply (Permutation_in _ (Permutation_map fst (insert_item_perm x l))) in Hk.
      destruct Hk as [<-|Hk]; [apply leb_false_lt; exact E|].
      rewrite Forall_forall in Hall. auto.
Qed.

Lemma sorted_items_sorted (l : list (string * list json)) :
  NoDup (map fst l) -> StronglySorted str_lt (map fst (sorted_items l)).
Proof.
  induction l as [|x l IH]; simpl; intro Hnd; [constructor|].
  inversion Hnd as [|? ? Hnot Hnd']; subst.
  apply insert_item_sorted; [auto|].
  intro Hin. apply Hnot.
  exact (Permutation_in _ (Permutation_map fst (sorted_items_perm l)) Hin).
Qed.

(** ** The dates in order *)

Lemma insert_date_perm (d : string) (l : list string) :
  Permutation (insert_date d l) (d :: l).
Proof.
  induction l as [|d' l IH]; simpl; [reflexivity|].
  destruct (String.leb d d'); [reflexivity|].
  rewrite IH. apply perm_swap.
Qed.

Lemma sort_dates_perm (l : list string) : Permutation (sort_dates l) l.
Proof.
  induction l as [|d l IH]; simpl; [reflexivity|].
  rewrite insert_date_perm. constructor. exact IH.
Qed.

Lemma insert_date_sorted (d : string) (l : list string) :
  StronglySorted str_lt l -> ~ In d l -> StronglySorted str_lt (insert_date d l).
Proof.
  induction l as [|d' l IH]; simpl; intros Hs Hnot.
  - repeat constructor.
  - apply StronglySorted_inv in Hs. destruct Hs as (Hs & Hall).
    destruct (String.leb d d') eqn:E.
    + assert (Hlt : str_lt d d') by (apply leb_true_lt; auto).
      constructor; [constructor; assumption|].
      constructor; [exact Hlt|].
      eapply Forall_impl; [|exact Hall]. intros a Ha. eapply str_lt_trans; eassumption.
    + constructor; [apply IH; auto|].
      apply Forall_forall. intros k Hk.
      apply (Permutation_in _ (insert_date_perm d l)) in Hk.
      destruct Hk as [<-|Hk]; [apply leb_false_lt; exact E|].
      rewrite Forall_forall in Hall. auto.
Qed.

Lemma sort_dates_sorted (l : list string) : NoDup l -> StronglySorted str_lt (sort_dates l).
Proof.
  induction 1 as [|d l Hnot _ IH]; simpl; [constructor|].
  apply insert_date_sorted; [exact IH|].
  intro Hin. apply Hnot. exact (Permutation_in _ (sort_dates_perm l) Hin).
Qed.

(** Two ascending lists with the same elements are the same list. *)
Lemma sorted_unique (l1 l2 : list string) :
  StronglySorted str_lt l1 -> StronglySorted str_lt l2 ->
  (forall d, In d l1 <-> In d l2) -> l1 = l2.
Proof.
  intro H1. revert l2. induction H1 as [|a l1 Hs1 IH Ha]; intros l2 H2 Hsame.
  - destruct l2 as [|b l2]; [reflexivity|].
    destruct (proj2 (Hsame b) (or_introl eq_refl)).
  - destruct H2 as [|b l2 Hs2 Hb].
    + destruct (proj1 (Hsame a) (or_introl eq_refl)).
    + rewrite Forall_forall in Ha, Hb.
      assert (Hab : a = b).
      { destruct (proj1 (Hsame a) (or_introl eq_refl)) as [E|Hin]; [congruence|].
        destruct (proj2 (Hsame b) (or_introl eq_refl)) as [E|Hin']; [exact E|].
        exfalso. apply (str_lt_irrefl a).
        eapply str_lt_trans; [apply Ha; exact Hin' | apply Hb; exact Hin]. }
      subst b. f_equal. apply IH; [exact Hs2|].
      intro d. split; intro Hd.
      * destruct (proj1 (Hsame d) (or_intror Hd)) as [E|Hin]; [|exact Hin].
        subst d. destruct (str_lt_irrefl a (Ha a Hd)).
      * destruct (proj2 (Hsame d) (or_intror Hd)) as [E|Hin]; [|exact Hin].
        subst d. destruct (str_lt_irrefl a (Hb a Hd)).
Qed.

Lemma sorted_dates_eq (items : list json) (dates : list string) :
  StronglySorted str_lt dates ->
  (forall d, In d dates <-> In d (item_dates items)) ->
  dates = sort_dates (distinct_dates items).
Proof.
  intros Hs Hin. apply sorted_unique; [exact Hs| |].
  - apply sort_dates_sorted, NoDup_nodup.
  - intro d. rewrite Hin. unfold distinct_dates. split; intro Hd.
    + apply (Permutation_in _ (Permutation_sym (sort_dates_perm _))), nodup_In, Hd.
    + apply (Permutation_in _ (sort_dates_perm _)) in Hd. apply nodup_In in Hd. exact Hd.
Qed.


(** ** One entry per date *)

Section Days.

Context {RT : PyStr}.

Lemma daily_loop_mapM (items : list (string * list json)) (acc : list json) :
  daily_loop acc items =
  (es <- mapM entry_of (firstn (5 - List.length acc) items) ;; Ok (acc ++ es)).
Proof.
  revert acc; induction items as [|[date readings] items IH]; intro acc.
  - rewrite firstn_nil. simpl. rewrite app_nil_r. reflexivity.
  - cbn [daily_loop].
    destruct (Nat.leb_spec 5 (List.length acc)) as [Hge|Hlt].
    + replace (5 - List.length acc)%nat with 0%nat by lia.
      simpl. rewrite app_nil_r. reflexivity.
    + destruct (5 - List.length acc)%nat as [|k] eqn:Ek; [lia|].
      cbn [firstn mapM]. unfold entry_of at 1. cbn [fst snd].
      destruct (day_entry date readings) as [e|err]; cbn [bind]; [|reflexivity].
      rewrite IH, length_app. cbn [List.length].
      replace (5 - (List.length acc + 1))%nat with k by lia.
      destruct (mapM entry_of (firstn k items)); cbn [bind]; [|reflexivity].
      rewrite <- app_assoc. reflexivity.
Qed.

Lemma item_date_dt_txt (r : json) (d : string) :
  item_date r = Ok d -> exists s, getitem r "dt_txt" = Ok (JStr s).
Proof.
  unfold item_date. intro H. bind_inv H.
  destruct a; try discriminate. eauto.
Qed.

Lemma next_noon_find (readings : list json) (default : json) :
  Forall (fun r => exists s, getitem r "dt_txt" = Ok (JStr s)) readings ->
  next_noon readings default =
  Ok (match find has_noon readings with Some r => r | None => default end).
Proof.
  induction 1 as [|r readings (s & Hs) _ IH]; simpl; [reflexivity|].
  unfold has_noon. rewrite Hs. simpl.
  destruct (contains "12:00" s); [reflexivity | exact IH].
Qed.

Lemma day_entry_computed (items : list json) (d : string) (entry : json) :
  day_entry d (filter (date_is d) items) = Ok entry -> day_computed items d entry.
Proof.
  unfold day_entry, day_computed. cbv zeta.
  set (readings := filter (date_is d) items).
  assert (Hdt : Forall (fun r => exists s, getitem r "dt_txt" = Ok (JStr s)) readings).
  { apply Forall_forall. intros r Hr. apply filter_In in Hr. destruct Hr as (_ & Hr).
    apply date_is_true in Hr. eapply item_date_dt_txt; eassumption. }
  intro H.
  bind_inv H as default Hdef.
  bind_inv H as noon Hnoon.
  bind_inv H as los Hlos.
  bind_inv H as lo Hlo.
  bind_inv H as his Hhis.
  bind_inv H as hi Hhi.
  bind_inv H as dv Hdv.
  bind_inv H as desc Hdesc.
  bind_inv H as icon Hicon.
  injection H as <-.
  destruct dv as [| | |raw| |]; try discriminate. injection Hdesc as <-.
  exists noon, los, his, lo, hi, raw, icon.
  repeat split; try assumption.
  rewrite (next_noon_find _ _ Hdt) in Hnoon. injection Hnoon as <-.
  unfold noon_pick. destruct (find has_noon readings); [reflexivity|].
  destruct readings; [discriminate|]. simpl in *. congruence.
Qed.

Lemma In_firstn {A : Type} (n : nat) (l : list A) (x : A) : In x (firstn n l) -> In x l.
Proof.
  intro H. rewrite <- (firstn_skipn n l). apply in_or_app. left; exact H.
Qed.

Lemma Forall2_map_In {A B C : Type} (R : A -> C -> Prop) (S : B -> C -> Prop)
    (f : A -> B) (l : list A) (l' : list C) :
  Forall2 R l l' ->
  (forall x y, In x l -> R x y -> S (f x) y) ->
  Forall2 S (map f l) l'.
Proof.
  induction 1 as [|x y l l' Hxy _ IH]; intro Himp; simpl; constructor.
  - apply Himp; [left; reflexivity | exact Hxy].
  - apply IH. intros x' y' Hin. apply Himp. right; exact Hin.
Qed.

Lemma Forall2_same_length {A B : Type} (R : A -> B -> Prop) (l : list A) (l' : list B) :
  Forall2 R l l' -> List.length l' = List.length l.
Proof. induction 1; simpl; congruence. Qed.

(** The shape of every successful run of the forecast half. *)
Lemma forecast_days_computed (forecast : dict) (days : list json) :
  forecast_days forecast = Ok days ->
  exists items dates,
    py_iter (get_default forecast "list" (JArr [])) = Ok items /\
    mapM item_date items = Ok (item_dates items) /\
    StronglySorted str_lt dates /\
    (forall d, In d dates <-> In d (item_dates items)) /\
    Forall2 (day_computed items) (firstn 5 dates) days.
Proof.
  unfold forecast_days. intro H.
  bind_inv H as items Hitems.
  bind_inv H as grp Hgrp.
  pose proof (group_loop_grouped _ [] _ _ Hgrp grouped_nil) as (Hnd & Hrs & Hkeys).
  simpl in Hrs, Hkeys.
  pose proof (sorted_items_perm grp) as Hperm.
  exists items, (map fst (sorted_items grp)).
  split; [exact Hitems|]. split; [eapply group_loop_dates; eassumption|].
  split; [apply sorted_items_sorted; exact Hnd|].
  split.
  - intro d. rewrite <- Hkeys. split; apply Permutation_in.
    + apply Permutation_map. exact Hperm.
    + apply Permutation_map. symmetry. exact Hperm.
  - rewrite daily_loop_mapM in H. simpl in H.
    bind_inv H as es Hes. injection H as <-.
    rewrite firstn_map. apply mapM_Forall2 in Hes.
    eapply Forall2_map_In; [exact Hes|].
    intros [d rs] e Hp He. unfold entry_of in He. cbn [fst snd] in *.
    apply day_entry_computed. rewrite <- (Hrs d rs); [exact He|].
    eapply Permutation_in; [exact Hperm|]. eapply In_firstn; eassumption.
Qed.

End Days.

(** ** From the code to the words of the specification *)

Lemma Forall2_In_l {A B : Type} (R : A -> B -> Prop) (l : list A) (l' : list B) (x : A) :
  Forall2 R l l' -> In x l -> exists y, In y l' /\ R x y.
Proof.
  induction 1 as [|a b l l' Hab _ IH]; intros Hin; [destruct Hin|].
  destruct Hin as [<-|Hin].
  - exists b. split; [left; reflexivity | exact Hab].
  - destruct (IH Hin) as (y & Hy & Hxy). exists y. split; [right; exact Hy | exact Hxy].
Qed.

Lemma Forall2_In_r {A B : Type} (R : A -> B -> Prop) (l : list A) (l' : list B) (y : B) :
  Forall2 R l l' -> In y l' -> exists x, In x l /\ R x y.
Proof.
  induction 1 as [|a b l l' Hab _ IH]; intros Hin; [destruct Hin|].
  destruct Hin as [<-|Hin].
  - exists a. split; [left; reflexivity | exact Hab].
  - destruct (IH Hin) as (x & Hx & Hxy). exists x. split; [right; exact Hx | exact Hxy].
Qed.

(** The least of the values [f] takes on [readings] is the value at one of
    them and is at most the value at each. *)
Lemma min_over_readings (f : json -> result number) (readings : list json)
    (los : list number) (lo : number) :
  mapM f readings = Ok los -> py_min los = Ok lo ->
  (exists r, In r readings /\ f r = Ok lo) /\
  (forall r x, In r readings -> f r = Ok x -> (num_val lo <= num_val x)%Q).
Proof.
  intros Hlos Hlo. apply mapM_Forall2 in Hlos. apply py_min_spec in Hlo.
  destruct Hlo as (Hin & Hall). split.
  - apply (Forall2_In_r _ _ _ _ Hlos Hin).
  - intros r x Hr Hx. destruct (Forall2_In_l _ _ _ _ Hlos Hr) as (y & Hy & Hry).
    rewrite Hx in Hry. injection Hry as <-.
    rewrite Forall_forall in Hall. apply Hall, Hy.
Qed.

Lemma max_over_readings (f : json -> result number) (readings : list json)
    (his : list number) (hi : number) :
  mapM f readings = Ok his -> py_max his = Ok hi ->
  (exists r, In r readings /\ f r = Ok hi) /\
  (forall r x, In r readings -> f r = Ok x -> (num_val x <= num_val hi)%Q).
Proof.
  intros Hhis Hhi. apply mapM_Forall2 in Hhis. apply py_max_spec in Hhi.
  destruct Hhi as (Hin & Hall). split.
  - apply (Forall2_In_r _ _ _ _ Hhis Hin).
  - intros r x Hr Hx. destruct (Forall2_In_l _ _ _ _ Hhis Hr) as (y & Hy & Hry).
    rewrite Hx in Hry. injection Hry as <-.
    rewrite Forall_forall in Hall. apply Hall, Hy.
Qed.

Lemma item_dates_In (items : list json) (d : string) :
  In d (item_dates items) <-> exists item, In item items /\ item_date item = Ok d.
Proof.
  unfold item_dates. rewrite in_flat_map. split.
  - intros (item & Hitem & Hd). exists item. split; [exact Hitem|].
    destruct (item_date item) as [d'|e]; [|destruct Hd].
    destruct Hd as [->|[]]. reflexivity.
  - intros (item & Hitem & Hd). exists item. split; [exact Hitem|].
    rewrite Hd. left; reflexivity.
Qed.

Lemma dates_in_order_iff (items : list json) (dates : list string) :
  dates_in_order items dates <->
  StronglySorted str_lt dates /\ (forall d, In d dates <-> In d (item_dates items)).
Proof.
  unfold dates_in_order. split; intros (Hs & Hin); (split; [exact Hs|]); intro d;
    rewrite (Hin d), item_dates_In; split; intros (r & Hr & Hd); exists r;
    (split; [exact Hr | apply item_date_dated; exact Hd]).
Qed.

Lemma mapM_item_date_timestamps (items : list json) (ds : list string) :
  mapM item_date items = Ok ds -> Forall (fun r => exists s, timestamp r s) items.
Proof.
  intro H. apply mapM_Forall2 in H.
  induction H as [|r d items ds Hd _ IH]; constructor; [|exact IH].
  apply item_date_dated in Hd. destruct Hd as (s & Hs & _). eauto.
Qed.

Section Words.

Context {RT : PyStr}.

Lemma day_computed_day_spec (items : list json) (d : string) (entry : json) :
  day_computed items d entry -> day_spec items d entry.
Proof.
  intros (noon & los & his & lo & hi & raw & icon
          & Hnoon & Hdesc & Hicon & Hlos & Hlo & Hhis & Hhi & ->).
  destruct (weather0_fields _ _ _ _ _ Hdesc Hicon) as (w & Hw & Hraw & Hic).
  destruct (min_over_readings _ _ _ _ Hlos Hlo) as ((r1 & Hr1 & E1) & Hlow).
  destruct (max_over_readings _ _ _ _ Hhis Hhi) as ((r2 & Hr2 & E2) & Hhigh).
  exists (filter (date_is d) items), noon, w, raw, icon, lo, hi, (py_round lo), (py_round hi).
  split; [apply filter_picked|].
  split; [apply noon_pick_describes, Hnoon|].
  split; [exact Hw|]. split; [exact Hraw|]. split; [exact Hic|].
  split.
  { split; [exists r1; split; [exact Hr1 | apply temp_min_temp_of, E1]|].
    intros r x Hr Hx. apply temp_min_temp_of in Hx. eapply Hlow; eassumption. }
  split.
  { split; [exists r2; split; [exact Hr2 | apply temp_max_temp_of, E2]|].
    intros r x Hr Hx. apply temp_max_temp_of in Hx. eapply Hhigh; eassumption. }
  split; [split; [apply py_round_nearest | apply py_round_rounds]|].
  split; [split; [apply py_round_nearest | apply py_round_rounds] | reflexivity].
Qed.

(** Every successful run of the forecast half, in the words of the
    specification. *)
Lemma forecast_days_spec (forecast : dict) (items : list json) (days : list json) :
  forecast_list forecast items ->
  forecast_days forecast = Ok days ->
  exists dates,
    Forall (fun r => exists s, timestamp r s) items /\
    dates_in_order items dates /\
    Forall2 (day_computed items) (firstn 5 dates) days.
Proof.
  intros Hlist Hdays. apply forecast_list_iter in Hlist.
  apply forecast_days_computed in Hdays.
  destruct Hdays as (items' & dates & Hitems & Hdates & Hsorted & Hin & Hall).
  rewrite Hlist in Hitems. injection Hitems as <-.
  exists dates. split; [eapply mapM_item_date_timestamps; exact Hdates|].
  split; [apply dates_in_order_iff; auto | exact Hall].
Qed.

End Words.

Lemma sort_dates_in_order (items : list json) :
  dates_in_order items (sort_dates (distinct_dates items)).
Proof.
  apply dates_in_order_iff. split.
  - apply sort_dates_sorted, NoDup_nodup.
  - intro d. split; intro H.
    + apply (Permutation_in _ (sort_dates_perm _)) in H.
      apply nodup_In in H. exact H.
    + apply (Permutation_in _ (Permutation_sym (sort_dates_perm _))).
      apply nodup_In. exact H.
Qed.

Lemma dates_in_order_unique (items : list json) (dates dates' : list string) :
  dates_in_order items dates -> dates_in_order items dates' -> dates = dates'.
Proof.
  intros (Hs & Hin) (Hs' & Hin').
  apply sorted_unique; [exact Hs | exact Hs' |].
  intro d. rewrite Hin, Hin'. reflexivity.
Qed.

(** ** The two halves of [_normalize] *)

Section Normalize.

Context {RT : PyStr}.

Lemma normalize_inv (current forecast : dict) (payload : json) :
  _normalize current forecast = Ok payload ->
  exists now today name country days,
    now_of current = Ok now /\
    dict_item current "dt" = Ok today /\
    dict_item current "name" = Ok name /\
    country_of current = Ok country /\
    forecast_days forecast = Ok days /\
    payload = mk_payload name country now days.
Proof.
  unfold _normalize, forecast_days, country_of. intro H.
  bind_inv H as now Hnow.
  bind_inv H as items Hitems.
  bind_inv H as grp Hgrp.
  bind_inv H as today Htoday.
  bind_inv H as days Hdays.
  bind_inv H as name Hname.
  bind_inv H as sys Hsys.
  bind_inv H as country Hcountry.
  injection H as <-.
  exists now, today, name, country, days.
  rewrite Hitems, Hsys. cbn [bind]. rewrite Hgrp. cbn [bind].
  repeat split; assumption.
Qed.

Lemma normalize_intro (current forecast : dict) (now today name country : json)
    (days : list json) :
  now_of current = Ok now ->
  dict_item current "dt" = Ok today ->
  dict_item current "name" = Ok name ->
  country_of current = Ok country ->
  forecast_days forecast = Ok days ->
  _normalize current forecast = Ok (mk_payload name country now days).
Proof.
  unfold _normalize, forecast_days, country_of. intros Hnow Htoday Hname Hcountry H.
  bind_inv H as items Hitems.
  bind_inv H as grp Hgrp.
  bind_inv Hcountry as sys Hsys.
  rewrite Hnow, Hitems. cbn [bind]. rewrite Hgrp, Htoday. cbn [bind].
  rewrite H, Hname, Hsys. cbn [bind]. rewrite Hcountry. reflexivity.
Qed.

Lemma sorted_NoDup (l : list string) : StronglySorted str_lt l -> NoDup l.
Proof.
  induction 1 as [|a l Hs IH Hall]; constructor; [|exact IH].
  intro Hin. rewrite Forall_forall in Hall.
  exact (str_lt_irrefl a (Hall a Hin)).
Qed.

Lemma computed_entry_date (items : list json) (d : string) (e : json) :
  day_computed items d e -> entry_date e = Some d.
Proof.
  intros (noon & los & his & lo & hi & raw & icon & _ & _ & _ & _ & _ & _ & _ & ->).
  reflexivity.
Qed.

Lemma computed_entry_dates (items : list json) (dates : list string) (days : list json) :
  Forall2 (day_computed items) dates days -> entry_dates days = map Some dates.
Proof.
  unfold entry_dates.
  induction 1 as [|d e dates days Hde _ IH]; cbn [map]; [reflexivity|].
  rewrite (computed_entry_date _ _ _ Hde), IH. reflexivity.
Qed.

Lemma payload_field (name country now : json) (days : list json) :
  field (mk_payload name country now days) "forecast" (JArr days).
Proof. apply getitem_field. reflexivity. Qed.

(** ** Statements about the forecast *)


End Normalize.

(** ** Documents on which the forecast half returns *)

Section Returns.

Context {RT : PyStr}.

Lemma mapM_returns {A B : Type} (f : A -> result B) (l : list A) :
  Forall (fun x => exists y, f x = Ok y) l ->
  exists ys, mapM f l = Ok ys /\ List.length ys = List.length l.
Proof.
  induction 1 as [|x l (y & Hy) _ (ys & Hys & Hlen)]; simpl.
  - exists []. auto.
  - exists (y :: ys). rewrite Hy, Hys. simpl. auto.
Qed.

Lemma group_loop_returns (items : list json) (days : list (string * list json)) :
  Forall well_formed_reading items -> exists days', group_loop days items = Ok days'.
Proof.
  intro Hwf. revert days.
  induction Hwf as [|item items (s & _ & _ & _ & _ & Hs & _) _ IH]; intro days; simpl.
  - eauto.
  - unfold item_date. rewrite Hs. cbn [bind]. apply IH.
Qed.

Lemma filter_date_some (d : string) (items : list json) :
  In d (item_dates items) -> filter (date_is d) items <> [].
Proof.
  intros Hin Hnil. unfold item_dates in Hin. apply in_flat_map in Hin.
  destruct Hin as (item & Hitem & Hd).
  assert (Hf : In item (filter (date_is d) items)).
  { apply filter_In. split; [exact Hitem|]. apply date_is_true.
    destruct (item_date item) as [d'|e]; [|destruct Hd].
    destruct Hd as [->|[]]. reflexivity. }
  rewrite Hnil in Hf. exact Hf.
Qed.

Lemma find_In {A : Type} (f : A -> bool) (l : list A) (x : A) :
  find f l = Some x -> In x l.
Proof. intro H. apply find_some in H. tauto. Qed.

Lemma day_entry_returns (d : string) (readings : list json) :
  readings <> [] ->
  Forall well_formed_reading readings ->
  exists entry, day_entry d readings = Ok entry.
Proof.
  intros Hne Hwf.
  destruct readings as [|r0 rest]; [contradiction|]. clear Hne.
  assert (Hfirst : first_reading (r0 :: rest) = Ok r0) by reflexivity.
  assert (Hr0 : In r0 (r0 :: rest)) by (left; reflexivity).
  assert (Hlen : List.length (r0 :: rest) <> 0%nat) by discriminate.
  revert Hwf Hfirst Hr0 Hlen. generalize (r0 :: rest). intros readings Hwf Hfirst Hr0 Hlen.
  assert (Hdt : Forall (fun r => exists s, getitem r "dt_txt" = Ok (JStr s)) readings).
  { eapply Forall_impl; [|exact Hwf]. intros r (s & _ & _ & _ & _ & Hs & _). eauto. }
  assert (Hnoon : exists noon, next_noon readings r0 = Ok noon /\ In noon readings).
  { rewrite (next_noon_find _ _ Hdt).
    destruct (find has_noon readings) as [r|] eqn:Ef.
    - exists r. split; [reflexivity | eapply find_In; eassumption].
    - exists r0. split; [reflexivity | exact Hr0]. }
  destruct Hnoon as (noon & Hnoon & Hin).
  destruct (mapM_returns temp_min readings) as (los & Hlos & Hllen).
  { eapply Forall_impl; [|exact Hwf]. intros r (_ & lo & _ & _ & _ & _ & Hlo & _). eauto. }
  destruct (mapM_returns temp_max readings) as (his & Hhis & Hhlen).
  { eapply Forall_impl; [|exact Hwf]. intros r (_ & _ & hi & _ & _ & _ & _ & Hhi & _). eauto. }
  destruct los as [|lo0 los]; [simpl in Hllen; congruence|].
  destruct his as [|hi0 his]; [simpl in Hhlen; congruence|].
  rewrite Forall_forall in Hwf.
  destruct (Hwf noon Hin) as (_ & _ & _ & desc & icon & _ & _ & _ & Hdesc & Hicon).
  unfold day_entry. rewrite Hfirst. cbn [bind].
  rewrite Hnoon. cbn [bind]. rewrite Hlos. cbn [bind py_min].
  rewrite Hhis. cbn [bind py_max]. rewrite Hdesc. cbn [bind capitalize_of].
  rewrite Hicon. cbn [bind]. eauto.
Qed.

(** When the items of the list are readings with a timestamp, the two
    temperatures, a described weather and an icon, the forecast half
    returns. *)
Lemma forecast_days_returns (forecast : dict) (items : list json) :
  py_iter (get_default forecast "list" (JArr [])) = Ok items ->
  Forall well_formed_reading items ->
  exists days, forecast_days forecast = Ok days.
Proof.
  intros Hitems Hwf. unfold forecast_days. rewrite Hitems. cbn [bind].
  destruct (group_loop_returns items [] Hwf) as (grp & Hgrp).
  rewrite Hgrp. cbn [bind]. rewrite daily_loop_mapM. cbn [List.length Nat.sub app].
  pose proof (group_loop_grouped _ [] _ _ Hgrp grouped_nil) as (Hnd & Hrs & Hkeys).
  simpl in Hrs, Hkeys.
  destruct (mapM_returns entry_of (firstn 5 (sorted_items grp))) as (es & Hes & _).
  { apply Forall_forall. intros [d rs] Hp. unfold entry_of. cbn [fst snd].
    apply In_firstn in Hp.
    apply (Permutation_in _ (sorted_items_perm grp)) in Hp.
    pose proof (Hrs d rs Hp) as ->.
    apply day_entry_returns.
    - apply filter_date_some, Hkeys. apply (in_map fst) in Hp. exact Hp.
    - apply Forall_forall. intros r Hr. apply filter_In in Hr.
      rewrite Forall_forall in Hwf. apply Hwf. tauto. }
  rewrite Hes. cbn [bind]. eauto.
Qed.

(** With a current-weather document that has the fields [_normalize] reads,
    [_normalize] returns on such a forecast document. *)
Lemma normalize_returns (current forecast : dict) (items : list json)
    (now today name country : json) :
  now_of current = Ok now ->
  dict_item current "dt" = Ok today ->
  dict_item current "name" = Ok name ->
  country_of current = Ok country ->
  py_iter (get_default forecast "list" (JArr [])) = Ok items ->
  Forall well_formed_reading items ->
  exists days, _normalize current forecast = Ok (mk_payload name country now days).
Proof.
  intros Hnow Htoday Hname Hcountry Hitems Hwf.
  destruct (forecast_days_returns _ _ Hitems Hwf) as (days & Hdays).
  exists days. eapply normalize_intro; eassumption.
Qed.

End Returns.

Lemma same_elements_length (l1 l2 : list string) :
  NoDup l1 -> NoDup l2 -> (forall d, In d l1 <-> In d l2) ->
  List.length l1 = List.length l2.
Proof.
  intros H1 H2 H. apply Permutation_length, NoDup_Permutation; assumption.
Qed.

Section ForecastClaims.

Context {RT : PyStr}.


(** C3: no date is left out.  Whenever [_normalize] returns, the dates of its
    forecast entries are, in order, the first five (or all, when fewer) of
    the distinct dates of the items of the forecast list in ascending order,
    the date of an item being the first ten characters of its timestamp; the
    earliest date of the list is the date of the first entry; and the forecast
    array is the same whatever the current-weather document, its [dt]
    included. *)
Theorem no_date_excluded (current forecast : dict) (items : list json) (payload : json) :
  forecast_list forecast items ->
  _normalize current forecast = Ok payload ->
  exists dates days,
    dates_in_order items dates /\
    field payload "forecast" (JArr days) /\
    Forall2 (fun d e => field e "date" (JStr d)) (firstn 5 dates) days /\
    (forall d, hd_error dates = Some d ->
               exists e rest, days = e :: rest /\ field e "date" (JStr d)) /\
    (forall current' payload',
       _normalize current' forecast = Ok payload' ->
       field payload' "forecast" (JArr days)).
Proof.
  intros Hlist Hnorm. apply normalize_inv in Hnorm.
  destruct Hnorm as (now & today & name & country & days & _ & _ & _ & _ & Hdays & ->).
  destruct (forecast_days_spec _ _ _ Hlist Hdays) as (dates & _ & Hdates & Hall).
  assert (Hfields : Forall2 (fun d e => field e "date" (JStr d)) (firstn 5 dates) days).
  { eapply Forall2_impl; [|exact Hall]. intros d e Hde.
    destruct Hde as (noon & los & his & lo & hi & raw & icon & _ & _ & _ & _ & _ & _ & _ & ->).
    apply getitem_field. reflexivity. }
  exists dates, days.
  split; [exact Hdates|]. split; [apply payload_field|]. split; [exact Hfields|]. split.
  - intros d Hd. destruct dates as [|d0 dates]; [discriminate|]. injection Hd as ->.
    cbn [firstn] in Hfields. inversion Hfields as [|? e ? rest He _]; subst. eauto.
  - intros current' payload' H'. apply normalize_inv in H'.
    destruct H' as (now' & today' & name' & country' & days' & _ & _ & _ & _ & Hdays' & ->).
    rewrite Hdays in Hdays'. injection Hdays' as <-. apply payload_field.
Qed.

Lemma mapM_head {A B : Type} (f : A -> result B) (x : A) (l : list A) (ys : list B) :
  mapM f (x :: l) = Ok ys -> exists y ys', ys = y :: ys' /\ f x = Ok y.
Proof.
  simpl. intro H.
  bind_inv H as y Hy.
  apply bind_ok in H. destruct H as (ys' & _ & H).
  injection H as <-. eauto.
Qed.

Lemma day_computed_min_le_max (items : list json) (d : string) (e : json) :
  (forall item lo hi, In item items ->
     temp_min item = Ok lo -> temp_max item = Ok hi -> (num_val lo <= num_val hi)%Q) ->
  day_computed items d e ->
  exists lo hi desc icon, e = mk_entry d lo hi desc icon /\ lo <= hi.
Proof.
  intros Hord (noon & los & his & lo & hi & raw & icon & Hnoon & _ & _ & Hlos & Hlo & Hhis & Hhi & ->).
  exists (py_round lo), (py_round hi), (str_capitalize raw), icon.
  split; [reflexivity|]. apply py_round_mono.
  destruct (filter (date_is d) items) as [|r rs] eqn:Ers.
  - unfold noon_pick in Hnoon. simpl in Hnoon. discriminate.
  - assert (Hr : In r items).
    { apply (proj1 (filter_In (date_is d) r items)). rewrite Ers. left; reflexivity. }
    destruct (mapM_head _ _ _ _ Hlos) as (a & los' & -> & Ha).
    destruct (mapM_head _ _ _ _ Hhis) as (b & his' & -> & Hb).
    apply py_min_spec in Hlo. apply py_max_spec in Hhi.
    destruct Hlo as (_ & Hlo). destruct Hhi as (_ & Hhi).
    apply Forall_inv in Hlo. apply Forall_inv in Hhi.
    eapply Qle_trans; [exact Hlo|]. eapply Qle_trans; [|exact Hhi].
    eapply Hord; eassumption.
Qed.

Lemma forecast_days_no_list (forecast : dict) :
  dict_get forecast "list" = None \/ dict_get forecast "list" = Some (JArr []) ->
  forecast_days forecast = Ok [].
Proof.
  unfold forecast_days, get_default. intros [-> | ->]; reflexivity.
Qed.

(** C10: when every reading of the forecast document has its [temp_min] at
    most its [temp_max], every entry of the forecast array has its [min] at
    most its [max]; and a forecast document whose ["list"] is missing or
    empty gives the empty forecast array: with it [_normalize] returns
    whenever it returns on the same current-weather document with some
    forecast document. *)
Theorem min_le_max_and_empty_list (forecast : dict) :
  (forall current payload items,
     py_iter (get_default forecast "list" (JArr [])) = Ok items ->
     (forall item lo hi, In item items ->
        temp_min item = Ok lo -> temp_max item = Ok hi -> (num_val lo <= num_val hi)%Q) ->
     _normalize current forecast = Ok payload ->
     exists days,
       getitem payload "forecast" = Ok (JArr days) /\
       Forall (fun e => exists d lo hi desc icon,
                          e = mk_entry d lo hi desc icon /\ lo <= hi) days) /\
  (dict_get forecast "list" = None \/ dict_get forecast "list" = Some (JArr []) ->
   forecast_days forecast = Ok [] /\
   forall current forecast' payload',
     _normalize current forecast' = Ok payload' ->
     exists payload,
       _normalize current forecast = Ok payload /\
       getitem payload "forecast" = Ok (JArr [])).
Proof.
  split.
  - intros current payload items Hitems Hord H. apply normalize_inv in H.
    destruct H as (now & today & name & country & days & _ & _ & _ & _ & Hdays & ->).
    apply forecast_days_computed in Hdays.
    destruct Hdays as (items' & dates & Hitems' & _ & _ & _ & Hall).
    rewrite Hitems in Hitems'. injection Hitems' as <-.
    exists days. split; [reflexivity|].
    induction Hall as [|d e ds days Hde _ IH]; constructor; [|exact IH].
    destruct (day_computed_min_le_max _ _ _ Hord Hde) as (lo & hi & desc & icon & He & Hle).
    exists d, lo, hi, desc, icon. auto.
  - intro Hlist. pose proof (forecast_days_no_list _ Hlist) as Hdays.
    split; [exact Hdays|].
    intros current forecast' payload' H. apply normalize_inv in H.
    destruct H as (now & today & name & country & days & Hnow & Htoday & Hname & Hcountry & _ & _).
    exists (mk_payload name country now []).
    split; [|reflexivity]. eapply normalize_intro; eassumption.
Qed.

End ForecastClaims.

(** ** The handler *)

Lemma is_empty_true (s : string) : is_empty s = true <-> s = "".
Proof. destruct s; simpl; split; congruence. Qed.

Lemma is_empty_false (s : string) : is_empty s = false <-> s <> "".
Proof. destruct s; simpl; split; congruence. Qed.

Lemma assoc_get_absent (l : list (string * string)) (k default : string) :
  (forall v, ~ In (k, v) l) -> assoc_get l k default = default.
Proof.
  induction l as [|[k' v] l IH]; simpl; intro H; [reflexivity|].
  destruct (String.eqb_spec k' k) as [->|_].
  - exfalso. apply (H v). left; reflexivity.
  - apply IH. intros v' Hin. apply (H v'). right; exact Hin.
Qed.

Lemma absent_city (req : HttpRequest) :
  (forall v, ~ In ("city", v) (params req)) -> city_of req = "".
Proof.
  unfold city_of. intro H. rewrite (assoc_get_absent _ _ _ H). reflexivity.
Qed.

Lemma absent_key (environ : list (string * string)) :
  (forall v, ~ In ("OPENWEATHER_API_KEY", v) environ) -> api_key_of environ = "".
Proof. apply assoc_get_absent. Qed.

Section Handler.

Context `{Platform}.

Lemma main_eq (req : HttpRequest) (environ : list (string * string)) (log : list http_call) :
  main req environ log =
  if is_empty (city_of req) then
    (Ok (_error 400 "Missing required parameter: city"), log)
  else if is_empty (api_key_of environ) then
    (Ok (_error 500 "Server configuration error: missing API key"), log)
  else
    let c1 := current_call (city_of req) (api_key_of environ) in
    let c2 := forecast_call (city_of req) (api_key_of environ) in
    match fst (_fetch_current (city_of req) (api_key_of environ) log) with
    | Raise e => (handle e, log ++ [c1])
    | Ok current =>
        match fst (_fetch_forecast (city_of req) (api_key_of environ) (log ++ [c1])) with
        | Raise e => (handle e, (log ++ [c1]) ++ [c2])
        | Ok forecast => (respond current forecast, (log ++ [c1]) ++ [c2])
        end
    end.
Proof.
  unfold main. fold (city_of req). fold (api_key_of environ).
  destruct (is_empty (city_of req)); [reflexivity|].
  destruct (is_empty (api_key_of environ)); [reflexivity|].
  unfold _fetch_current, _fetch_forecast, fetch, respond. cbn [fst snd].
  destruct (resp <- requests_get log _ ;; _ <- raise_for_status resp ;; resp_json resp)
    as [current|e]; [|reflexivity].
  destruct (resp <- requests_get (log ++ _) _ ;; _ <- raise_for_status resp ;; resp_json resp)
    as [forecast|e]; [|reflexivity].
  destruct (not_200 (get_default current "cod" JNull)); reflexivity.
Qed.

(** C6: a request whose [city] parameter is absent, is empty, or is made of
    whitespace only, of any of the characters [str.isspace] holds of, is empty
    once trimmed; it is answered with status 400, and the calls made are those
    made before: no call goes upstream. *)
Theorem empty_city_400 (req : HttpRequest) (environ : list (string * string))
    (log : list http_call) :
  (forall v, ~ In ("city", v) (params req)) \/
  assoc_get (params req) "city" "" = "" \/
  whitespace_only (assoc_get (params req) "city" "") ->
  exists r,
    city_of req = "" /\
    main req environ log = (Ok r, log) /\
    status_code r = 400 /\
    body r = json_dumps (JObj [("error", JStr "Missing required parameter: city")]).
Proof.
  intro Hcases.
  assert (Hcity : city_of req = "").
  { destruct Hcases as [Habsent|[Hempty|Hspace]].
    - apply absent_city, Habsent.
    - unfold city_of. rewrite Hempty. reflexivity.
    - apply strip_empty_iff, Hspace. }
  rewrite main_eq, Hcity. simpl.
  eexists. split; [reflexivity|]. split; [reflexivity|]. split; reflexivity.
Qed.

(** C5, as the code has it: a request whose trimmed [city] is not empty,
    under an environment where [OPENWEATHER_API_KEY] is absent ([absent_key])
    or empty, is answered with status 500, and no call goes upstream. *)
Theorem missing_key_500 (req : HttpRequest) (environ : list (string * string))
    (log : list http_call) :
  city_of req <> "" ->
  api_key_of environ = "" ->
  exists r,
    main req environ log = (Ok r, log) /\
    status_code r = 500 /\
    body r = json_dumps (JObj [("error", JStr "Server configuration error: missing API key")]).
Proof.
  intros Hcity Hkey. rewrite main_eq, Hkey.
  apply is_empty_false in Hcity. rewrite Hcity. simpl.
  eexists. split; [reflexivity|]. split; reflexivity.
Qed.

(** C7: with a city and a key, a fetch that raises a timeout is answered with
    status 504 and one that raises any other request exception with status
    502, be it the first fetch or the second; the calls made are then the
    failed one and, for the second, the one before it, each made once: nothing
    is tried again. *)
Theorem upstream_failure_status (req : HttpRequest) (environ : list (string * string))
    (log : list http_call) :
  city_of req <> "" ->
  api_key_of environ <> "" ->
  let city := city_of req in
  let key := api_key_of environ in
  let c1 := current_call city key in
  let c2 := forecast_call city key in
  let timed_out := _error 504 "Upstream API timed out. Please try again." in
  let unreachable := _error 502 "Failed to reach weather service." in
  status_code timed_out = 504 /\ status_code unreachable = 502 /\
  (fst (_fetch_current city key log) = Raise Timeout ->
   main req environ log = (Ok timed_out, log ++ [c1])) /\
  (fst (_fetch_current city key log) = Raise RequestException ->
   main req environ log = (Ok unreachable, log ++ [c1])) /\
  (forall current,
     fst (_fetch_current city key log) = Ok current ->
     (fst (_fetch_forecast city key (log ++ [c1])) = Raise Timeout ->
      main req environ log = (Ok timed_out, (log ++ [c1]) ++ [c2])) /\
     (fst (_fetch_forecast city key (log ++ [c1])) = Raise RequestException ->
      main req environ log = (Ok unreachable, (log ++ [c1]) ++ [c2]))).
Proof.
  intros Hcity Hkey city key c1 c2 timed_out unreachable.
  apply is_empty_false in Hcity. apply is_empty_false in Hkey.
  rewrite main_eq, Hcity, Hkey. cbv zeta.
  fold city key c1 c2.
  split; [reflexivity|]. split; [reflexivity|].
  split; [intros ->; reflexivity|].
  split; [intros ->; reflexivity|].
  intros current ->. split; intros ->; reflexivity.
Qed.

(** C4: with a city and a key, when both fetches return a document and the
    [cod] of the current-weather document is not 200, the answer has status
    404 and its body is the error object whose message is "OpenWeather
    error: " followed by the upstream message: the text itself when the
    message is a string, "City not found" when the document has none. *)
Theorem upstream_error_404 (req : HttpRequest) (environ : list (string * string))
    (log : list http_call) (current forecast : dict) :
  city_of req <> "" ->
  api_key_of environ <> "" ->
  let city := city_of req in
  let key := api_key_of environ in
  fst (_fetch_current city key log) = Ok current ->
  fst (_fetch_forecast city key (log ++ [current_call city key])) = Ok forecast ->
  not_200 (get_default current "cod" JNull) = true ->
  exists r msg,
    fst (main req environ log) = Ok r /\
    status_code r = 404 /\
    body r = json_dumps (JObj [("error", JStr ("OpenWeather error: " ++ msg)%string)]) /\
    msg = format_value (get_default current "message" (JStr "City not found")) /\
    (forall s, dict_get current "message" = Some (JStr s) -> msg = s) /\
    (dict_get current "message" = None -> msg = "City not found").
Proof.
  intros Hcity Hkey city key Hcur Hfc Hcod.
  apply is_empty_false in Hcity. apply is_empty_false in Hkey.
  rewrite main_eq, Hcity, Hkey. cbv zeta. fold city key.
  rewrite Hcur, Hfc. unfold respond. rewrite Hcod. cbn [fst].
  eexists. eexists. split; [reflexivity|].
  split; [reflexivity|]. split; [reflexivity|]. split; [reflexivity|].
  unfold get_default. split.
  - intros s ->. reflexivity.
  - intros ->. reflexivity.
Qed.



End Handler.
(** ** The statements on the fixtures *)

Section Fixtures.

#[local] Existing Instance ascii_runtime.




Lemma no_date_excluded_witness :
  forecast_list five_day_forecast five_day_items /\
  _normalize lima_current five_day_forecast = Ok lima_payload /\
  dates_in_order five_day_items
    ["2024-05-01"; "2024-05-02"; "2024-05-03"; "2024-05-04"; "2024-05-05"] /\
  Forall2 (fun d e => field e "date" (JStr d))
    ["2024-05-01"; "2024-05-02"; "2024-05-03"; "2024-05-04"; "2024-05-05"] lima_days /\
  (exists e rest, lima_days = e :: rest /\ field e "date" (JStr "2024-05-01")) /\
  (forall current' payload',
     _normalize current' five_day_forecast = Ok payload' ->
     field payload' "forecast" (JArr lima_days)).
Proof.
  assert (Hlist : forecast_list five_day_forecast five_day_items)
    by (left; apply member_dict_get; reflexivity).
  assert (Hrun : _normalize lima_current five_day_forecast = Ok lima_payload)
    by (vm_compute; reflexivity).
  split; [exact Hlist|]. split; [exact Hrun|].
  destruct (no_date_excluded lima_current five_day_forecast five_day_items lima_payload
              Hlist Hrun)
    as (dates & days & Hdates & Hfield & Hall & Hfirst & Hany).
  assert (Edates : dates =
            ["2024-05-01"; "2024-05-02"; "2024-05-03"; "2024-05-04"; "2024-05-05"]).
  { apply (dates_in_order_unique five_day_items); [exact Hdates|].
    exact (sort_dates_in_order five_day_items). }
  assert (Edays : JArr days = JArr lima_days).
  { apply (field_unique lima_payload "forecast"); [exact Hfield|].
    apply getitem_field. reflexivity. }
  injection Edays as ->. subst dates.
  split; [exact Hdates|]. split; [exact Hall|].
  split; [exact (Hfirst "2024-05-01"%string eq_refl) | exact Hany].
Defined.

Lemma min_le_max_and_empty_list_witness :
  (exists days,
     getitem (match _normalize lima_current two_readings_forecast with
              | Ok payload => payload
              | Raise _ => JNull
              end) "forecast" = Ok (JArr days) /\
     Forall (fun e => exists d lo hi desc icon,
                        e = mk_entry d lo hi desc icon /\ lo <= hi) days) /\
  forecast_days no_list_forecast = Ok [].
Proof.
  split.
  - apply (proj1 (min_le_max_and_empty_list two_readings_forecast)
             lima_current _ two_readings).
    + vm_compute; reflexivity.
    + intros item lo hi [<-|[<-|[]]] Hlo Hhi;
        vm_compute in Hlo; vm_compute in Hhi;
        injection Hlo as <-; injection Hhi as <-; vm_compute; discriminate.
    + vm_compute; reflexivity.
  - apply (proj2 (min_le_max_and_empty_list no_list_forecast)).
    left. vm_compute; reflexivity.
Defined.

End Fixtures.

Lemma empty_city_400_witness :
  whitespace_only (assoc_get (params unicode_blank_request) "city" "") /\
  exists r,
    city_of unicode_blank_request = "" /\
    @main lima_platform unicode_blank_request with_key [] = (Ok r, []) /\
    status_code r = 400 /\
    body r = dumps (JObj [("error", JStr "Missing required parameter: city")]).
Proof.
  assert (Hblank : whitespace_only (assoc_get (params unicode_blank_request) "city" "")).
  { apply (whitespace_cons (utf8 160)); [in_whitespace|].
    apply (whitespace_cons (utf8 12288)); [in_whitespace|].
    apply (whitespace_cons (utf8 8232) ""); [in_whitespace | constructor]. }
  split; [exact Hblank|].
  apply (@empty_city_400 lima_platform unicode_blank_request with_key []).
  right; right. exact Hblank.
Defined.

(** C5 fails as it is stated: with no key in the environment and no [city]
    in the request, the answer has status 400, not 500. *)
Lemma missing_key_empty_city_400 :
  api_key_of no_key = "" /\
  fst (@main lima_platform no_city_request no_key []) =
    Ok (@_error lima_platform 400 "Missing required parameter: city") /\
  status_code (@_error lima_platform 400 "Missing required parameter: city") <> 500.
Proof.
  split; [reflexivity|]. split; [reflexivity|]. discriminate.
Qed.

Lemma missing_key_500_witness :
  city_of lima_request <> "" /\ api_key_of no_key = "" /\
  exists r,
    @main lima_platform lima_request no_key [] = (Ok r, []) /\
    status_code r = 500 /\
    body r = dumps (JObj [("error", JStr "Server configuration error: missing API key")]).
Proof.
  assert (Hcity : city_of lima_request <> "") by (vm_compute; discriminate).
  split; [exact Hcity|]. split; [vm_compute; reflexivity|].
  apply (@missing_key_500 lima_platform lima_request no_key [] Hcity).
  vm_compute; reflexivity.
Defined.

Lemma upstream_failure_status_witness :
  fst (@main (fixture_platform (Raise Timeout) (ok_response five_day_forecast))
         lima_request with_key []) =
    Ok (@_error lima_platform 504 "Upstream API timed out. Please try again.") /\
  snd (@main (fixture_platform (ok_response lima_current) (Raise RequestException))
         lima_request with_key []) =
    [current_call "Lima" "k3y"; forecast_call "Lima" "k3y"].
Proof.
  assert (Hcity : city_of lima_request <> "") by (vm_compute; discriminate).
  assert (Hkey : api_key_of with_key <> "") by (vm_compute; discriminate).
  split.
  - pose proof (@upstream_failure_status
                  (fixture_platform (Raise Timeout) (ok_response five_day_forecast))
                  lima_request with_key [] Hcity Hkey) as (_ & _ & H & _).
    rewrite (H eq_refl). reflexivity.
  - pose proof (@upstream_failure_status
                  (fixture_platform (ok_response lima_current) (Raise RequestException))
                  lima_request with_key [] Hcity Hkey) as (_ & _ & _ & _ & H).
    destruct (H lima_current eq_refl) as (_ & H502).
    rewrite (H502 eq_refl). reflexivity.
Defined.

Lemma upstream_error_404_witness :
  exists r,
    fst (@main unknown_city_platform lima_request with_key []) = Ok r /\
    status_code r = 404 /\
    body r = dumps (JObj [("error", JStr "OpenWeather error: city not found")]).
Proof.
  assert (Hcity : city_of lima_request <> "") by (vm_compute; discriminate).
  assert (Hkey : api_key_of with_key <> "") by (vm_compute; discriminate).
  destruct (@upstream_error_404 unknown_city_platform lima_request with_key []
              unknown_city unknown_city Hcity Hkey eq_refl eq_refl eq_refl)
    as (r & msg & Hr & Hstatus & Hbody & _ & Hmsg & _).
  exists r. split; [exact Hr|]. split; [exact Hstatus|].
  rewrite Hbody, (Hmsg "city not found" eq_refl). reflexivity.
Defined.


(** ** Runs *)

Example round_ties_to_even :
  map round_half_even [5 # 2; 7 # 2; -5 # 2; 26 # 10; -26 # 10; 1 # 2]%Q = [2; 4; -2; 3; -3; 0].
Proof. reflexivity. Qed.

Example capitalize_lowers_the_rest : @str_capitalize ascii_runtime "light Rain" = "Light rain".
Proof. reflexivity. Qed.

Example strip_keeps_inner_spaces : strip "  San  Juan " = "San  Juan".
Proof. reflexivity. Qed.

(** A tab before and a no-break space after the city are trimmed; a city of
    a no-break space, an ideographic space and a line separator is empty. *)
Example strip_unicode_whitespace :
  city_of padded_request = "Lima" /\ city_of unicode_blank_request = "" /\
  city_of blank_request = "".
Proof. repeat split. Qed.

(** Characters, not bytes, are counted: the first of two two-byte characters
    is the first two bytes. *)
Example first_character_of_two :
  take_chars 1 (utf8 233 ++ utf8 241) = utf8 233 /\
  chars_of (utf8 233 ++ "t" ++ utf8 8364) = [utf8 233; "t"%string; utf8 8364].
Proof. split; reflexivity. Qed.

(** The loop stops before the sixth date: what its readings lack is never
    read. *)
Example sixth_date_not_read :
  match @forecast_days ascii_runtime six_day_forecast with
  | Ok days =>
      entry_dates days =
      map Some ["2024-05-01"; "2024-05-02"; "2024-05-03"; "2024-05-04"; "2024-05-05"]
  | Raise _ => False
  end.
Proof. vm_compute. reflexivity. Qed.

(** An HTTP error status is raised by [raise_for_status] and answered as an
    unreachable service, whatever document comes with it. *)
Example http_error_status_is_502 :
  fst (@main http_404_platform lima_request with_key []) =
  Ok (@_error http_404_platform 502 "Failed to reach weather service.").
Proof. reflexivity. Qed.

Example lima_run_body :
  match fst (@main lima_platform lima_request with_key []) with
  | Ok r => status_code r = 200 /\ body r = dumps lima_payload
  | Raise _ => False
  end.
Proof. vm_compute. split; reflexivity. Qed.

(** * Further properties *)

Section HandlerFurther.

Context `{Platform}.

Lemma snd_main (req : HttpRequest) (environ : list (string * string)) (log : list http_call) :
  let c1 := current_call (city_of req) (api_key_of environ) in
  let c2 := forecast_call (city_of req) (api_key_of environ) in
  snd (main req environ log) =
  log ++ (if is_empty (city_of req) || is_empty (api_key_of environ) then []
          else match fst (_fetch_current (city_of req) (api_key_of environ) log) with
               | Ok _ => [c1; c2]
               | Raise _ => [c1]
               end).
Proof.
  cbv zeta. rewrite main_eq.
  destruct (is_empty (city_of req)); cbn [orb snd]; [rewrite app_nil_r; reflexivity|].
  destruct (is_empty (api_key_of environ)); cbn [orb snd]; [rewrite app_nil_r; reflexivity|].
  cbv zeta.
  destruct (fst (_fetch_current _ _ log)); [|reflexivity].
  rewrite <- app_assoc.
  destruct (fst (_fetch_forecast _ _ _)); reflexivity.
Qed.

(** X1: the calls of one run.  [main] keeps the calls made before and adds
    none, the current-weather call alone, or the current-weather call
    followed by the forecast call: none exactly when the trimmed city or the
    key is empty, both exactly when the first fetch returned a document.  The
    forecast is never fetched first or alone, and no call is made twice. *)
Theorem calls_of_a_run (req : HttpRequest) (environ : list (string * string))
    (log : list http_call) :
  let city := city_of req in
  let key := api_key_of environ in
  let c1 := current_call city key in
  let c2 := forecast_call city key in
  exists n,
    snd (main req environ log) = log ++ firstn n [c1; c2] /\
    (n <= 2)%nat /\
    (n = 0%nat <-> city = "" \/ key = "") /\
    (n = 2%nat <->
     city <> "" /\ key <> "" /\ exists current, fst (_fetch_current city key log) = Ok current).
Proof.
  intros city key c1 c2. rewrite snd_main. fold city key c1 c2.
  destruct (is_empty city) eqn:Ec.
  { apply is_empty_true in Ec. exists 0%nat. cbn [orb firstn].
    split; [reflexivity|]. split; [lia|]. split; [tauto|].
    split; [discriminate | tauto]. }
  destruct (is_empty key) eqn:Ek.
  { apply is_empty_true in Ek. exists 0%nat. cbn [orb firstn].
    split; [reflexivity|]. split; [lia|]. split; [tauto|].
    split; [discriminate | tauto]. }
  apply is_empty_false in Ec. apply is_empty_false in Ek. cbn [orb].
  destruct (fst (_fetch_current city key log)) as [current|e].
  - exists 2%nat. split; [reflexivity|]. split; [lia|].
    split; [split; [discriminate | tauto]|]. split; eauto.
  - exists 1%nat. split; [reflexivity|]. split; [lia|].
    split; [split; [discriminate | tauto]|].
    split; [discriminate|]. intros (_ & _ & current & E). discriminate.
Qed.

(** X2: what goes upstream.  Every call a run adds carries the 8 second
    timeout, metric units, the configured key, which is not empty, and as
    query the city of the request trimmed: the parameter without the
    whitespace at its two ends, of any of the characters [str.isspace] holds
    of; it is not empty and neither starts nor ends with whitespace. *)
Theorem calls_carry_trimmed_city (req : HttpRequest) (environ : list (string * string))
    (log : list http_call) (call : http_call) :
  In call (new_calls req environ log) ->
  exists q key,
    dict_get (call_params call) "q" = Some (JStr q) /\
    trimmed_of (assoc_get (params req) "city" "") q /\
    q <> "" /\ ~ starts_with_space q /\ ~ ends_with_space q /\
    dict_get (call_params call) "appid" = Some (JStr key) /\
    key = assoc_get environ "OPENWEATHER_API_KEY" "" /\ key <> "" /\
    dict_get (call_params call) "units" = Some (JStr "metric") /\
    call_timeout call = 8 /\
    (call_url call = (OPENWEATHER_BASE ++ "/weather")%string \/
     call_url call = (OPENWEATHER_BASE ++ "/forecast")%string /\
     dict_get (call_params call) "cnt" = Some (JNum (NInt 40))).
Proof.
  unfold new_calls. rewrite snd_main. cbv zeta.
  rewrite skipn_app, skipn_all, Nat.sub_diag. cbn [app skipn].
  destruct (is_empty (city_of req)) eqn:Ec; cbn [orb]; [intros []|].
  destruct (is_empty (api_key_of environ)) eqn:Ek; cbn [orb]; [intros []|].
  apply is_empty_false in Ec. apply is_empty_false in Ek.
  pose proof (strip_trimmed (assoc_get (params req) "city" "")) as Htrim.
  fold (city_of req) in Htrim.
  destruct Htrim as (Hparts & Hs & He).
  intro Hin.
  assert (Hcall : call = current_call (city_of req) (api_key_of environ) \/
                  call = forecast_call (city_of req) (api_key_of environ)).
  { destruct (fst (_fetch_current _ _ log)); simpl in Hin; intuition. }
  exists (city_of req), (api_key_of environ).
  assert (Htrimmed : trimmed_of (assoc_get (params req) "city" "") (city_of req))
    by (split; [exact Hparts | split; [exact Hs | exact He]]).
  destruct Hcall as [-> | ->];
    (split; [reflexivity|]); (split; [exact Htrimmed|]);
    (split; [exact Ec|]); (split; [exact Hs|]); (split; [exact He|]);
    (split; [reflexivity|]); (split; [reflexivity|]); (split; [exact Ek|]);
    (split; [reflexivity|]); (split; [reflexivity|]);
    [left; reflexivity | right; split; reflexivity].
Qed.

(** X3: an HTTP error status.  With a city and a key, when the service
    answers the current-weather call with a status from 400 to 599, whatever
    the document that comes with it, the answer is 502 and the forecast is not
    fetched; when it so answers the forecast call, the answer is 502 as
    well. *)
Theorem http_error_status_502 (req : HttpRequest) (environ : list (string * string))
    (log : list http_call) (resp : Response) :
  city_of req <> "" ->
  api_key_of environ <> "" ->
  400 <= resp_status resp < 600 ->
  let c1 := current_call (city_of req) (api_key_of environ) in
  let c2 := forecast_call (city_of req) (api_key_of environ) in
  let unreachable := _error 502 "Failed to reach weather service." in
  (requests_get log c1 = Ok resp ->
   main req environ log = (Ok unreachable, log ++ [c1])) /\
  (forall current,
     fst (_fetch_current (city_of req) (api_key_of environ) log) = Ok current ->
     requests_get (log ++ [c1]) c2 = Ok resp ->
     main req environ log = (Ok unreachable, (log ++ [c1]) ++ [c2])).
Proof.
  intros Hcity Hkey Hstatus c1 c2 unreachable.
  apply is_empty_false in Hcity. apply is_empty_false in Hkey.
  assert (Hraise : raise_for_status resp = Raise RequestException).
  { unfold raise_for_status.
    destruct (Z.leb_spec 400 (resp_status resp)); [|lia].
    destruct (Z.ltb_spec (resp_status resp) 600); [reflexivity | lia]. }
  rewrite main_eq, Hcity, Hkey. cbv zeta. fold c1 c2.
  split.
  - intro Hget. unfold _fetch_current, fetch. fold c1. cbn [fst].
    rewrite Hget. cbn [bind]. rewrite Hraise. reflexivity.
  - intros current Hcur Hget. rewrite Hcur.
    unfold _fetch_forecast, fetch. fold c2. cbn [fst].
    rewrite Hget. cbn [bind]. rewrite Hraise. reflexivity.
Qed.

End HandlerFurther.

(** ** What [_normalize] raises *)

Create HintDb only_py.

Lemma only_py_ok {A : Type} (a : A) : only_py (Ok a).
Proof. intros e E. discriminate. Qed.

Lemma only_py_raise {A : Type} : only_py (@Raise A PyError).
Proof. intros e E. injection E as <-. reflexivity. Qed.

Lemma only_py_bind {A B : Type} (m : result A) (k : A -> result B) :
  only_py m -> (forall a, only_py (k a)) -> only_py (bind m k).
Proof.
  intros Hm Hk e. destruct m as [a|e']; simpl.
  - apply Hk.
  - intro E. injection E as <-. apply Hm. reflexivity.
Qed.

Lemma only_py_mapM {A B : Type} (f : A -> result B) (l : list A) :
  (forall x, only_py (f x)) -> only_py (mapM f l).
Proof.
  intro Hf. induction l as [|x l IH]; simpl.
  - apply only_py_ok.
  - apply only_py_bind; [apply Hf | intro y].
    apply only_py_bind; [exact IH | intro ys]. apply only_py_ok.
Qed.

#[local] Hint Resolve only_py_ok only_py_raise : only_py.

(** Closes a goal [only_py m] for [m] built from binds and matches. *)
Ltac only_py :=
  repeat first
    [ solve [auto with only_py]
    | apply only_py_mapM; intro
    | apply only_py_bind; [|intro]
    | match goal with
      | |- only_py (match ?x with _ => _ end) => destruct x
      | |- only_py (if ?b then _ else _) => destruct b
      end ].

Lemma only_py_dict_item (d : dict) (k : string) : only_py (dict_item d k).
Proof. unfold dict_item. only_py. Qed.

#[local] Hint Resolve only_py_dict_item : only_py.

Lemma only_py_getitem (v : json) (k : string) : only_py (getitem v k).
Proof. unfold getitem. only_py. Qed.

Lemma only_py_getindex0 (v : json) : only_py (getindex0 v).
Proof. unfold getindex0. only_py. Qed.

Lemma only_py_as_number (v : json) : only_py (as_number v).
Proof. unfold as_number. only_py. Qed.

Lemma only_py_capitalize_of {RT : PyStr} (v : json) : only_py (capitalize_of v).
Proof. unfold capitalize_of. only_py. Qed.

Lemma only_py_py_iter (v : json) : only_py (py_iter v).
Proof. unfold py_iter. only_py. Qed.

Lemma only_py_py_in (sub : string) (v : json) : only_py (py_in sub v).
Proof. unfold py_in. only_py. Qed.

#[local] Hint Resolve only_py_getitem only_py_getindex0 only_py_as_number
  only_py_capitalize_of only_py_py_iter only_py_py_in : only_py.

Lemma only_py_item_date (item : json) : only_py (item_date item).
Proof. unfold item_date. only_py. Qed.

Lemma only_py_temp_min (r : json) : only_py (temp_min r).
Proof. unfold temp_min. only_py. Qed.

Lemma only_py_temp_max (r : json) : only_py (temp_max r).
Proof. unfold temp_max. only_py. Qed.

Lemma only_py_weather0 (v : json) (field : string) : only_py (weather0 v field).
Proof. unfold weather0. only_py. Qed.

Lemma only_py_py_min (l : list number) : only_py (py_min l).
Proof. unfold py_min. only_py. Qed.

Lemma only_py_py_max (l : list number) : only_py (py_max l).
Proof. unfold py_max. only_py. Qed.

Lemma only_py_first_reading (l : list json) : only_py (first_reading l).
Proof. unfold first_reading. only_py. Qed.

#[local] Hint Resolve only_py_item_date only_py_temp_min only_py_temp_max
  only_py_weather0 only_py_py_min only_py_py_max only_py_first_reading : only_py.

Lemma only_py_next_noon (readings : list json) (default : json) :
  only_py (next_noon readings default).
Proof. induction readings as [|r readings IH]; simpl; only_py. Qed.

#[local] Hint Resolve only_py_next_noon : only_py.

Lemma only_py_day_entry {RT : PyStr} (d : string) (readings : list json) : only_py (day_entry d readings).
Proof.
  unfold day_entry. only_py.
Qed.

#[local] Hint Resolve only_py_day_entry : only_py.

Lemma only_py_group_loop (items : list json) (days : list (string * list json)) :
  only_py (group_loop days items).
Proof. revert days. induction items as [|item items IH]; intro days; simpl; only_py. Qed.

Lemma only_py_daily_loop {RT : PyStr} (items : list (string * list json)) (acc : list json) :
  only_py (daily_loop acc items).
Proof.
  revert acc. induction items as [|[d rs] items IH]; intro acc; cbn [daily_loop]; only_py.
Qed.

#[local] Hint Resolve only_py_group_loop only_py_daily_loop : only_py.

Lemma only_py_now_of {RT : PyStr} (current : dict) : only_py (now_of current).
Proof. unfold now_of. only_py. Qed.

#[local] Hint Resolve only_py_now_of : only_py.

Lemma only_py_normalize {RT : PyStr} (current forecast : dict) : only_py (_normalize current forecast).
Proof. unfold _normalize. only_py. Qed.

Lemma only_py_forecast_days {RT : PyStr} (forecast : dict) : only_py (forecast_days forecast).
Proof. unfold forecast_days. only_py. Qed.

Lemma not_ok_raises {A : Type} (m : result A) :
  only_py m -> (forall a, m <> Ok a) -> m = Raise PyError.
Proof.
  intros Hm Hno. destruct m as [a|e]; [destruct (Hno a eq_refl)|].
  rewrite (Hm e eq_refl). reflexivity.
Qed.

(** X5: a field that is missing.  When the current-weather document lacks
    one of [main], [weather], [wind], [dt], [name] and [sys], [_normalize]
    raises, whatever the forecast document; so it does for [dt], whose value
    it never uses. *)
Theorem missing_field_raises {RT : PyStr} (current forecast : dict) (k : string) :
  In k current_fields ->
  dict_get current k = None ->
  _normalize current forecast = Raise PyError.
Proof.
  intros Hk Hnone. apply not_ok_raises; [apply only_py_normalize|].
  intros payload Hp. apply normalize_inv in Hp.
  destruct Hp as (now & today & name & country & days & Hnow & Htoday & Hname & Hcountry & _).
  unfold current_fields in Hk. simpl in Hk.
  destruct Hk as [<-|[<-|[<-|[<-|[<-|[<-|[]]]]]]].
  - unfold now_of, dict_item in Hnow. rewrite Hnone in Hnow. discriminate.
  - unfold now_of in Hnow.
    bind_inv Hnow as m Hm. bind_inv Hnow as t Ht. bind_inv Hnow as temp Htemp.
    bind_inv Hnow as m1 Hm1. bind_inv Hnow as f Hf. bind_inv Hnow as feels Hfeels.
    bind_inv Hnow as d Hd.
    unfold weather0, getitem, dict_item in Hd. rewrite Hnone in Hd. discriminate.
  - unfold now_of in Hnow.
    bind_inv Hnow as m Hm. bind_inv Hnow as t Ht. bind_inv Hnow as temp Htemp.
    bind_inv Hnow as m1 Hm1. bind_inv Hnow as f Hf. bind_inv Hnow as feels Hfeels.
    bind_inv Hnow as d Hd. bind_inv Hnow as desc Hdesc. bind_inv Hnow as icon Hicon.
    bind_inv Hnow as m2 Hm2. bind_inv Hnow as humidity Hhum.
    bind_inv Hnow as w Hw.
    unfold dict_item in Hw. rewrite Hnone in Hw. discriminate.
  - unfold dict_item in Htoday. rewrite Hnone in Htoday. discriminate.
  - unfold dict_item in Hname. rewrite Hnone in Hname. discriminate.
  - unfold country_of, dict_item in Hcountry. rewrite Hnone in Hcountry. discriminate.
Qed.

Section HandlerOutcomes.

Context `{Platform}.

(** X4: documents as the service sends them.  With a city and a key, when
    both fetches return, the [cod] of the current-weather document is 200,
    that document has the fields [_normalize] reads and every item of the
    forecast list is a reading with a timestamp, the two temperatures, a
    described weather and an icon, the answer has status 200, its body is the
    serialized payload of the city, the country, the [now] block and the
    forecast days, and both calls were made. *)
Theorem well_formed_upstream_200 (req : HttpRequest) (environ : list (string * string))
    (log : list http_call) (current forecast : dict) (items : list json)
    (now today name country : json) :
  city_of req <> "" ->
  api_key_of environ <> "" ->
  let c1 := current_call (city_of req) (api_key_of environ) in
  let c2 := forecast_call (city_of req) (api_key_of environ) in
  fst (_fetch_current (city_of req) (api_key_of environ) log) = Ok current ->
  fst (_fetch_forecast (city_of req) (api_key_of environ) (log ++ [c1])) = Ok forecast ->
  not_200 (get_default current "cod" JNull) = false ->
  now_of current = Ok now ->
  dict_item current "dt" = Ok today ->
  dict_item current "name" = Ok name ->
  country_of current = Ok country ->
  py_iter (get_default forecast "list" (JArr [])) = Ok items ->
  Forall well_formed_reading items ->
  exists days r,
    forecast_days forecast = Ok days /\
    main req environ log = (Ok r, (log ++ [c1]) ++ [c2]) /\
    status_code r = 200 /\
    body r = json_dumps (mk_payload name country now days).
Proof.
  intros Hcity Hkey c1 c2 Hcur Hfc Hcod Hnow Htoday Hname Hcountry Hitems Hwf.
  apply is_empty_false in Hcity. apply is_empty_false in Hkey.
  destruct (forecast_days_returns _ _ Hitems Hwf) as (days & Hdays).
  pose proof (normalize_intro _ _ _ _ _ _ _ Hnow Htoday Hname Hcountry Hdays) as Hnorm.
  exists days. eexists. split; [exact Hdays|].
  rewrite main_eq, Hcity, Hkey. cbv zeta. fold c1 c2.
  rewrite Hcur, Hfc. unfold respond. rewrite Hcod, Hnorm. cbn [bind].
  split; [reflexivity|]. split; reflexivity.
Qed.

(** X6: a document [_normalize] cannot read.  With a city and a key, when
    both fetches return and the [cod] is 200 but [_normalize] raises, the
    handler gives no response: the exception, a [PyError], leaves [main],
    after both calls were made. *)
Theorem normalize_failure_escapes (req : HttpRequest) (environ : list (string * string))
    (log : list http_call) (current forecast : dict) (e : exn) :
  city_of req <> "" ->
  api_key_of environ <> "" ->
  let c1 := current_call (city_of req) (api_key_of environ) in
  let c2 := forecast_call (city_of req) (api_key_of environ) in
  fst (_fetch_current (city_of req) (api_key_of environ) log) = Ok current ->
  fst (_fetch_forecast (city_of req) (api_key_of environ) (log ++ [c1])) = Ok forecast ->
  not_200 (get_default current "cod" JNull) = false ->
  _normalize current forecast = Raise e ->
  main req environ log = (Raise PyError, (log ++ [c1]) ++ [c2]).
Proof.
  intros Hcity Hkey c1 c2 Hcur Hfc Hcod Hraise.
  apply is_empty_false in Hcity. apply is_empty_false in Hkey.
  pose proof (only_py_normalize _ _ _ Hraise) as ->.
  rewrite main_eq, Hcity, Hkey. cbv zeta. fold c1 c2.
  rewrite Hcur, Hfc. unfold respond. rewrite Hcod, Hraise. reflexivity.
Qed.

Lemma not_200_false (v : json) :
  not_200 v = false -> exists n, v = JNum n /\ (num_val n == inject_Z 200)%Q.
Proof.
  destruct v as [| |n| | |]; simpl; try discriminate.
  intro E. apply negb_false_iff, Qeq_bool_iff in E. eauto.
Qed.

(** Splits a statement made status by status and drops the statuses that the
    response at hand does not have. *)
Ltac by_status Hs :=
  split; [|split; [|split; [|split; [|split]]]]; intro Hs; simpl in Hs; try discriminate.

(** X7: each status has one cause.  When [main] answers, status 400 means
    the trimmed city is empty; 500 that the city is not empty and the key is;
    504 that a fetch raised a timeout and 502 that a fetch raised another
    request exception, the forecast fetch only after the current-weather
    fetch returned; 404 that both fetches returned and the [cod] is not 200;
    and 200 that both returned and the [cod] is a number equal to 200. *)
Theorem status_tells_cause (req : HttpRequest) (environ : list (string * string))
    (log : list http_call) (r : HttpResponse) :
  fst (main req environ log) = Ok r ->
  let city := city_of req in
  let key := api_key_of environ in
  let c1 := current_call city key in
  let failed (e : exn) :=
    city <> "" /\ key <> "" /\
    (fst (_fetch_current city key log) = Raise e \/
     exists current,
       fst (_fetch_current city key log) = Ok current /\
       fst (_fetch_forecast city key (log ++ [c1])) = Raise e) in
  let fetched (current forecast : dict) :=
    city <> "" /\ key <> "" /\
    fst (_fetch_current city key log) = Ok current /\
    fst (_fetch_forecast city key (log ++ [c1])) = Ok forecast in
  (status_code r = 400 -> city = "") /\
  (status_code r = 500 -> city <> "" /\ key = "") /\
  (status_code r = 504 -> failed Timeout) /\
  (status_code r = 502 -> failed RequestException) /\
  (status_code r = 404 ->
   exists current forecast,
     fetched current forecast /\ not_200 (get_default current "cod" JNull) = true) /\
  (status_code r = 200 ->
   exists current forecast n,
     fetched current forecast /\
     dict_get current "cod" = Some (JNum n) /\ (num_val n == inject_Z 200)%Q).
Proof.
  intros Hr city key c1 failed fetched. subst failed fetched. cbv beta.
  rewrite main_eq in Hr. fold city key c1 in Hr.
  destruct (is_empty city) eqn:Ec.
  { apply is_empty_true in Ec. injection Hr as <-.
    by_status Hs. exact Ec. }
  apply is_empty_false in Ec.
  destruct (is_empty key) eqn:Ek.
  { apply is_empty_true in Ek. injection Hr as <-.
    by_status Hs; auto. }
  apply is_empty_false in Ek. cbv zeta in Hr.
  destruct (fst (_fetch_current city key log)) as [current|e] eqn:Hcur.
  2:{ cbn [fst] in Hr. destruct e; simpl in Hr; try discriminate; injection Hr as <-;
      by_status Hs; auto. }
  destruct (fst (_fetch_forecast city key (log ++ [c1]))) as [forecast|e] eqn:Hfc.
  2:{ cbn [fst] in Hr. destruct e; simpl in Hr; try discriminate; injection Hr as <-;
      by_status Hs;
      (split; [exact Ec|]; split; [exact Ek|]; right; exists current; auto). }
  cbn [fst] in Hr. unfold respond in Hr.
  destruct (not_200 (get_default current "cod" JNull)) eqn:Hcod.
  { injection Hr as <-. by_status Hs.
    exists current, forecast. auto. }
  bind_inv Hr as payload Hp. injection Hr as <-.
  by_status Hs.
  destruct (not_200_false _ Hcod) as (n & Hn & Hq).
  exists current, forecast, n. repeat split; auto.
  unfold get_default in Hn. destruct (dict_get current "cod"); [congruence | discriminate].
Qed.

End HandlerOutcomes.

(** ** The forecast half as a function of the dates *)

Lemma bind_ret {A : Type} (m : result A) : (x <- m ;; Ok x) = m.
Proof. destruct m; reflexivity. Qed.

Lemma mapM_map_ext {A B C : Type} (f : A -> result C) (g : B -> result C) (h : A -> B)
    (l : list A) :
  (forall x, In x l -> f x = g (h x)) -> mapM f l = mapM g (map h l).
Proof.
  induction l as [|x l IH]; simpl; intro Hext; [reflexivity|].
  rewrite (Hext x (or_introl eq_refl)), IH; [reflexivity|].
  intros y Hy. apply Hext. right; exact Hy.
Qed.

Lemma group_loop_dated (items : list json) (days : list (string * list json)) :
  forallb dated items = true -> exists days', group_loop days items = Ok days'.
Proof.
  revert days. induction items as [|item items IH]; intros days Hall; simpl; [eauto|].
  simpl in Hall. apply andb_true_iff in Hall. destruct Hall as (Hd & Hall).
  unfold dated in Hd. destruct (item_date item) as [d|e]; [|discriminate].
  cbn [bind]. apply IH, Hall.
Qed.

Lemma group_loop_undated (items : list json) (days : list (string * list json)) :
  forallb dated items = false -> group_loop days items = Raise PyError.
Proof.
  revert days. induction items as [|item items IH]; intros days Hall; simpl in *; [discriminate|].
  unfold dated in Hall at 1.
  destruct (item_date item) as [d|e] eqn:Ed; cbn [bind].
  - apply IH. exact Hall.
  - rewrite (only_py_item_date _ _ Ed). reflexivity.
Qed.

Lemma forecast_days_by_date {RT : PyStr} (forecast : dict) (items : list json) :
  py_iter (get_default forecast "list" (JArr [])) = Ok items ->
  forecast_days forecast =
  if forallb dated items
  then mapM (fun d => day_entry d (readings_of items d)) (first_five_dates items)
  else Raise PyError.
Proof.
  intro Hitems. unfold forecast_days. rewrite Hitems. cbn [bind].
  destruct (forallb dated items) eqn:Hall.
  - destruct (group_loop_dated items [] Hall) as (grp & Hgrp).
    rewrite Hgrp. cbn [bind].
    pose proof (group_loop_grouped _ [] _ _ Hgrp grouped_nil) as (Hnd & Hrs & Hkeys).
    simpl in Hrs, Hkeys.
    rewrite daily_loop_mapM. cbn [List.length Nat.sub app]. rewrite bind_ret.
    unfold first_five_dates.
    rewrite <- (sorted_dates_eq items (map fst (sorted_items grp))).
    + rewrite firstn_map. apply mapM_map_ext.
      intros [d rs] Hp. unfold entry_of, readings_of. cbn [fst snd].
      rewrite (Hrs d rs); [reflexivity|].
      eapply Permutation_in; [apply sorted_items_perm|]. eapply In_firstn; eassumption.
    + apply sorted_items_sorted, Hnd.
    + intro d. rewrite <- Hkeys. split; apply Permutation_in.
      * apply Permutation_map, sorted_items_perm.
      * apply Permutation_map. symmetry. apply sorted_items_perm.
  - rewrite (group_loop_undated items [] Hall). reflexivity.
Qed.

(** X8: the forecast half, date by date.  On the items of the forecast list,
    the forecast half fails when some item has no date; otherwise it is
    [day_entry], taken in turn on the first five of the distinct dates in
    ascending order, each with the items of that date in the order of the
    list, and it fails when one of these fails. *)
Theorem forecast_days_date_by_date {RT : PyStr} (forecast : dict) (items : list json) :
  py_iter (get_default forecast "list" (JArr [])) = Ok items ->
  forecast_days forecast =
  if forallb dated items
  then mapM (fun d => day_entry d (readings_of items d)) (first_five_dates items)
  else Raise PyError.
Proof. apply forecast_days_by_date. Qed.

Lemma first_five_dates_In (items : list json) (d : string) :
  In d (first_five_dates items) -> In d (item_dates items).
Proof.
  unfold first_five_dates, distinct_dates. intro Hd.
  apply In_firstn in Hd. apply (Permutation_in _ (sort_dates_perm _)) in Hd.
  apply nodup_In in Hd. exact Hd.
Qed.

(** X9: readings after the fifth date.  When every item of the forecast list
    has a date and the readings of the first five dates are well formed, the
    forecast half returns one entry for each of these dates, whatever else the
    readings of later dates hold or lack. *)
Theorem later_dates_not_read {RT : PyStr} (forecast : dict) (items : list json) :
  py_iter (get_default forecast "list" (JArr [])) = Ok items ->
  forallb dated items = true ->
  (forall d r, In d (first_five_dates items) -> In r (readings_of items d) ->
               well_formed_reading r) ->
  exists days,
    forecast_days forecast = Ok days /\
    entry_dates days = map Some (first_five_dates items).
Proof.
  intros Hitems Hall Hwf.
  rewrite (forecast_days_by_date _ _ Hitems), Hall.
  destruct (mapM_returns (fun d => day_entry d (readings_of items d)) (first_five_dates items))
    as (days & Hdays & _).
  { apply Forall_forall. intros d Hd. apply day_entry_returns.
    - apply filter_date_some, first_five_dates_In, Hd.
    - apply Forall_forall. intros r Hr. eapply Hwf; eassumption. }
  exists days. split; [exact Hdays|].
  apply mapM_Forall2 in Hdays. eapply computed_entry_dates.
  eapply Forall2_impl; [|exact Hdays].
  intros d e He. apply day_entry_computed. exact He.
Qed.

(** ** Counting and bounding the entries *)

(** X10: the number of entries.  Whenever [_normalize] returns, its forecast
    array has as many entries as the items of the forecast list have distinct
    dates, and five when they have more. *)
Theorem forecast_length {RT : PyStr} (current forecast : dict) (items : list json) (payload : json) :
  py_iter (get_default forecast "list" (JArr [])) = Ok items ->
  _normalize current forecast = Ok payload ->
  exists days,
    getitem payload "forecast" = Ok (JArr days) /\
    List.length days = Nat.min 5 (List.length (distinct_dates items)).
Proof.
  intros Hitems H. apply normalize_inv in H.
  destruct H as (now & today & name & country & days & _ & _ & _ & _ & Hdays & ->).
  apply forecast_days_computed in Hdays.
  destruct Hdays as (items' & dates & Hitems' & _ & Hsorted & Hin & Hall).
  rewrite Hitems in Hitems'. injection Hitems' as <-.
  exists days. split; [reflexivity|].
  rewrite (Forall2_same_length _ _ _ Hall), length_firstn.
  f_equal. apply same_elements_length.
  - apply sorted_NoDup, Hsorted.
  - apply NoDup_nodup.
  - intro d. unfold distinct_dates. rewrite nodup_In. apply Hin.
Qed.

(** X11: the range of a day.  Whenever [_normalize] returns, every entry of
    its forecast array has a date and two integers.  Among the readings of
    that date, those whose timestamp starts with it, its [min] is the
    [main.temp_min] of one of them rounded half to even and is at most the
    rounded [main.temp_min] of each, and its [max] is the [main.temp_max] of
    one of them rounded half to even and is at least the rounded
    [main.temp_max] of each. *)
Theorem day_range_bounds {RT : PyStr} (current forecast : dict) (items : list json)
    (payload : json) :
  forecast_list forecast items ->
  _normalize current forecast = Ok payload ->
  exists days,
    field payload "forecast" (JArr days) /\
    Forall (fun e =>
      exists d zlo zhi rs,
        field e "date" (JStr d) /\
        field e "min" (JNum (NInt zlo)) /\
        field e "max" (JNum (NInt zhi)) /\
        picked (dated_at d) items rs /\
        (exists r lo, In r rs /\ temp_of "temp_min" r lo /\
                      rounds_half_even (num_val lo) zlo) /\
        (exists r hi, In r rs /\ temp_of "temp_max" r hi /\
                      rounds_half_even (num_val hi) zhi) /\
        (forall r lo z, In r rs -> temp_of "temp_min" r lo ->
                        rounds_half_even (num_val lo) z -> zlo <= z) /\
        (forall r hi z, In r rs -> temp_of "temp_max" r hi ->
                        rounds_half_even (num_val hi) z -> z <= zhi))
      days.
Proof.
  intros Hlist H0. apply normalize_inv in H0.
  destruct H0 as (now & today & name & country & days & _ & _ & _ & _ & Hdays & ->).
  destruct (forecast_days_spec _ _ _ Hlist Hdays) as (dates & _ & _ & Hall).
  exists days. split; [apply payload_field|]. clear Hdays.
  induction Hall as [|d e ds days Hde _ IH]; [constructor|].
  constructor; [|exact IH].
  apply day_computed_day_spec in Hde.
  destruct Hde as (rs & noon & w & raw & icon & lo & hi & zlo & zhi
                   & Hrs & _ & _ & _ & _ & Hlo & Hhi & (_ & Hzlo) & (_ & Hzhi) & ->).
  destruct Hlo as ((rlo & Hrlo & Elo) & Hlow).
  destruct Hhi as ((rhi & Hrhi & Ehi) & Hhigh).
  exists d, zlo, zhi, rs.
  split; [apply getitem_field; reflexivity|].
  split; [apply getitem_field; reflexivity|].
  split; [apply getitem_field; reflexivity|].
  split; [exact Hrs|].
  split; [exists rlo, lo; auto|]. split; [exists rhi, hi; auto|].
  split.
  - intros r x z Hr Hx Hz.
    rewrite (rounds_half_even_unique _ _ Hzlo), (rounds_half_even_unique _ _ Hz).
    apply round_half_even_mono. eapply Hlow; eassumption.
  - intros r x z Hr Hx Hz.
    rewrite (rounds_half_even_unique _ _ Hzhi), (rounds_half_even_unique _ _ Hz).
    apply round_half_even_mono. eapply Hhigh; eassumption.
Qed.

Lemma py_round_same (a b : number) :
  (num_val a <= num_val b)%Q -> (num_val b <= num_val a)%Q -> py_round a = py_round b.
Proof.
  intros Hab Hba. apply Z.le_antisymm; apply py_round_mono; assumption.
Qed.

Lemma day_computed_same_range {RT : PyStr} (items items' : list json) (d : string) (e e' : json) :
  (forall r, In r items <-> In r items') ->
  day_computed items d e -> day_computed items' d e' ->
  entry_range e = entry_range e'.
Proof.
  intros Hsame
    (noon & los & his & lo & hi & raw & icon & _ & _ & _ & Hlos & Hlo & Hhis & Hhi & ->)
    (noon' & los' & his' & lo' & hi' & raw' & icon' & _ & _ & _ & Hlos' & Hlo' & Hhis' & Hhi' & ->).
  assert (Hr : forall r, In r (filter (date_is d) items) <-> In r (filter (date_is d) items')).
  { intro r. rewrite !filter_In, Hsame. reflexivity. }
  destruct (min_over_readings _ _ _ _ Hlos Hlo) as ((r1 & Hr1 & E1) & Hlow).
  destruct (min_over_readings _ _ _ _ Hlos' Hlo') as ((r1' & Hr1' & E1') & Hlow').
  destruct (max_over_readings _ _ _ _ Hhis Hhi) as ((r2 & Hr2 & E2) & Hhigh).
  destruct (max_over_readings _ _ _ _ Hhis' Hhi') as ((r2' & Hr2' & E2') & Hhigh').
  unfold entry_range, mk_entry, entry_date, entry_min, entry_max. cbn.
  rewrite (py_round_same lo lo'), (py_round_same hi hi'); [reflexivity| | | |].
  - eapply Hhigh'; [apply Hr; exact Hr2 | exact E2].
  - eapply Hhigh; [apply Hr; exact Hr2' | exact E2'].
  - eapply Hlow; [apply Hr; exact Hr1' | exact E1'].
  - eapply Hlow'; [apply Hr; exact Hr1 | exact E1].
Qed.

(** X12: the order of the readings.  Two forecast lists with the same items,
    in any order and any number of times each, on which [_normalize] returns,
    give forecast arrays with the same dates, the same [min] and the same
    [max], entry by entry. *)
Theorem same_items_same_ranges {RT : PyStr} (current current' forecast forecast' : dict)
    (items items' : list json) (payload payload' : json) :
  py_iter (get_default forecast "list" (JArr [])) = Ok items ->
  py_iter (get_default forecast' "list" (JArr [])) = Ok items' ->
  (forall r, In r items <-> In r items') ->
  _normalize current forecast = Ok payload ->
  _normalize current' forecast' = Ok payload' ->
  exists days days',
    getitem payload "forecast" = Ok (JArr days) /\
    getitem payload' "forecast" = Ok (JArr days') /\
    map entry_range days = map entry_range days'.
Proof.
  intros Hitems Hitems' Hsame H H'.
  apply normalize_inv in H.
  destruct H as (now & today & name & country & days & _ & _ & _ & _ & Hdays & ->).
  apply normalize_inv in H'.
  destruct H' as (now' & today' & name' & country' & days' & _ & _ & _ & _ & Hdays' & ->).
  apply forecast_days_computed in Hdays.
  destruct Hdays as (items0 & dates & Hitems0 & _ & Hsorted & Hin & Hall).
  rewrite Hitems in Hitems0. injection Hitems0 as <-.
  apply forecast_days_computed in Hdays'.
  destruct Hdays' as (items0 & dates' & Hitems0 & _ & Hsorted' & Hin' & Hall').
  rewrite Hitems' in Hitems0. injection Hitems0 as <-.
  assert (Hdates : dates = dates').
  { apply sorted_unique; [assumption|assumption|].
    intro d. rewrite Hin, Hin', !item_dates_In.
    split; intros (item & Hitem & Hd); exists item; split; auto; apply Hsame; exact Hitem. }
  subst dates'. exists days, days'. split; [reflexivity|]. split; [reflexivity|].
  revert days' Hall'. induction Hall as [|d e ds days Hde _ IH]; intros days' Hall'.
  - inversion Hall'. reflexivity.
  - inversion Hall' as [|? e' ? days'' Hde' Hrest]; subst. cbn [map].
    rewrite (day_computed_same_range _ _ _ _ _ Hsame Hde Hde'), (IH _ Hrest). reflexivity.
Qed.

(** X13: the [now] block and the place.  Whenever [_normalize] returns, the
    payload has as [city] the [name] and as [country] the [sys.country] of the
    current-weather document as they are, and its [now] block has
    [main.temp] and [main.feels_like] each rounded half to even to an integer,
    the capitalized description and the icon of the first weather,
    [main.humidity] as it is, and [wind.speed] as it is when it is an int and
    rounded half to even to one decimal when it is a float. *)
Theorem now_block {RT : PyStr} (current forecast : dict) (payload : json) :
  _normalize current forecast = Ok payload ->
  exists temp feels speed raw icon humidity t f w,
    temp_of "temp" (JObj current) temp /\
    temp_of "feels_like" (JObj current) feels /\
    (exists wind s, member current "wind" wind /\ field wind "speed" s /\ numeric s speed) /\
    (exists w0, first_weather (JObj current) w0 /\
                field w0 "description" (JStr raw) /\ field w0 "icon" icon) /\
    (exists m, member current "main" m /\ field m "humidity" humidity) /\
    field payload "now"
      (JObj [("temp", JNum (NInt t));
             ("feels_like", JNum (NInt f));
             ("desc", JStr (str_capitalize raw));
             ("icon", icon);
             ("humidity", humidity);
             ("wind", JNum w)]) /\
    rounds_half_even (num_val temp) t /\
    rounds_half_even (num_val feels) f /\
    (forall z, speed = NInt z -> w = NInt z) /\
    (forall q, speed = NFloat q ->
               exists k, rounds_half_even (q * inject_Z 10) k /\ w = NFloat (k # 10)) /\
    (exists name, member current "name" name /\ field payload "city" name) /\
    (exists sys country,
       member current "sys" sys /\ field sys "country" country /\
       field payload "country" country).
Proof.
  intro H0. apply normalize_inv in H0.
  destruct H0 as (now & today & name & country & days & Hnow & _ & Hname & Hcountry & _ & ->).
  unfold now_of in Hnow.
  bind_inv Hnow as m Hm. bind_inv Hnow as tv Htv. bind_inv Hnow as temp Htemp.
  bind_inv Hnow as m1 Hm1. bind_inv Hnow as fv Hfv. bind_inv Hnow as feels Hfeels.
  bind_inv Hnow as dv Hdv. bind_inv Hnow as desc Hdesc. bind_inv Hnow as icon Hicon.
  bind_inv Hnow as m2 Hm2. bind_inv Hnow as humidity Hhum.
  bind_inv Hnow as wv Hwv. bind_inv Hnow as sv Hsv. bind_inv Hnow as speed Hspeed.
  injection Hnow as <-.
  destruct dv as [| | |raw| |]; try discriminate. injection Hdesc as <-.
  rewrite Hm in Hm1. injection Hm1 as <-.
  rewrite Hm in Hm2. injection Hm2 as <-.
  apply dict_item_member in Hm, Hwv, Hname.
  apply getitem_field in Htv, Hfv, Hhum, Hsv.
  apply as_number_numeric in Htemp, Hfeels, Hspeed.
  unfold country_of in Hcountry. bind_inv Hcountry as sys Hsys.
  apply dict_item_member in Hsys. apply getitem_field in Hcountry.
  destruct (weather0_fields _ _ _ _ _ Hdv Hicon) as (w0 & Hw0 & Hraw & Hic).
  assert (Hmain : field (JObj current) "main" m) by (exists current; auto).
  exists temp, feels, speed, raw, icon, humidity,
    (py_round temp), (py_round feels), (py_round1 speed).
  split; [exists m, tv; auto|]. split; [exists m, fv; auto|].
  split; [exists wv, sv; auto|]. split; [exists w0; auto|].
  split; [exists m; auto|].
  split; [apply getitem_field; reflexivity|].
  split; [apply py_round_rounds|]. split; [apply py_round_rounds|].
  split; [intros z ->; reflexivity|].
  split.
  { intros q ->. exists (round_half_even (q * inject_Z 10)).
    split; [apply round_half_even_rounds | reflexivity]. }
  split; [exists name; split; [exact Hname | apply getitem_field; reflexivity]|].
  exists sys, country. split; [exact Hsys|]. split; [exact Hcountry|].
  apply getitem_field. reflexivity.
Qed.

(** ** What a fetch lets through *)

Section Fetch.

Context `{Platform}.

(** The statuses a fetch lets through: with a status below 400, or from 600
    on, the fetch gives what decoding the body gives and records the call. *)
Lemma fetch_passes_status (call : http_call) (log : list http_call) (resp : Response) :
  requests_get log call = Ok resp ->
  resp_status resp < 400 \/ 600 <= resp_status resp ->
  fetch call log = (resp_json resp, log ++ [call]).
Proof.
  intros Hget Hstatus. unfold fetch. rewrite Hget. cbn [bind].
  unfold raise_for_status.
  destruct (Z.leb_spec 400 (resp_status resp)); cbn [andb]; [|reflexivity].
  destruct (Z.ltb_spec (resp_status resp) 600); [lia | reflexivity].
Qed.

End Fetch.

(** ** The grouping loop *)

Lemma setdefault_append_concat (days : list (string * list json)) (d : string) (item : json) :
  Permutation (List.concat (map snd (setdefault_append days d item)))
              (List.concat (map snd days) ++ [item]).
Proof.
  induction days as [|[k rs] days IH]; simpl; [reflexivity|].
  destruct (k =? d); simpl.
  - rewrite <- !app_assoc. apply Permutation_app_head, Permutation_app_comm.
  - rewrite IH, app_assoc. reflexivity.
Qed.

Lemma group_loop_concat (items : list json) (days days' : list (string * list json)) :
  group_loop days items = Ok days' ->
  Permutation (List.concat (map snd days')) (List.concat (map snd days) ++ items).
Proof.
  revert days. induction items as [|item items IH]; simpl; intros days Hloop.
  - injection Hloop as <-. rewrite app_nil_r. reflexivity.
  - bind_inv Hloop as d Hd. rewrite (IH _ Hloop), setdefault_append_concat.
    rewrite <- app_assoc. reflexivity.
Qed.

(** X15: what the grouping loop builds.  When the loop over the items
    returns, the keys of its dict are distinct; under each key stand, in the
    order of the list, the items whose date is the key, and at least one; and
    all the groups together hold every item of the list exactly as often as
    the list does. *)
Theorem grouping_keeps_items (items : list json) (days : list (string * list json)) :
  group_loop [] items = Ok days ->
  NoDup (map fst days) /\
  (forall d readings, In (d, readings) days ->
     readings = readings_of items d /\ readings <> [] /\
     Forall (fun r => item_date r = Ok d) readings) /\
  Permutation (List.concat (map snd days)) items.
Proof.
  intro Hloop.
  pose proof (group_loop_grouped _ [] _ _ Hloop grouped_nil) as (Hnd & Hrs & Hkeys).
  simpl in Hrs, Hkeys.
  split; [exact Hnd|]. split; [|exact (group_loop_concat _ _ _ Hloop)].
  intros d readings Hin. pose proof (Hrs d readings Hin) as ->.
  split; [reflexivity|]. split.
  - apply filter_date_some, Hkeys. apply (in_map fst) in Hin. exact Hin.
  - apply Forall_forall. intros r Hr. apply filter_In in Hr.
    apply date_is_true. tauto.
Qed.

(** ** The further statements on the fixtures *)

Section FurtherFixtures.

#[local] Existing Instance ascii_runtime.

Lemma five_day_items_well_formed : Forall well_formed_reading five_day_items.
Proof.
  repeat (constructor; [do 5 eexists; repeat split; vm_compute; reflexivity|]).
  constructor.
Qed.

Lemma calls_carry_trimmed_city_witness :
  In (forecast_call "Lima" "k3y") (@new_calls lima_platform padded_request with_key []) /\
  dict_get (call_params (forecast_call "Lima" "k3y")) "q" = Some (JStr "Lima") /\
  trimmed_of (assoc_get (params padded_request) "city" "") "Lima" /\
  ~ starts_with_space "Lima" /\ ~ ends_with_space "Lima" /\
  dict_get (call_params (forecast_call "Lima" "k3y")) "appid" = Some (JStr "k3y").
Proof.
  assert (Hin : In (forecast_call "Lima" "k3y")
                   (@new_calls lima_platform padded_request with_key []))
    by (vm_compute; right; left; reflexivity).
  split; [exact Hin|].
  destruct (@calls_carry_trimmed_city lima_platform padded_request with_key [] _ Hin)
    as (q & key & Hq & Htrim & _ & Hs & He & Hk & _).
  assert (Eq : q = "Lima"%string) by (vm_compute in Hq; congruence).
  assert (Ek : key = "k3y"%string) by (vm_compute in Hk; congruence).
  subst q key.
  split; [exact Hq|]. split; [exact Htrim|]. split; [exact Hs|]. split; [exact He | exact Hk].
Defined.

Lemma http_error_status_502_witness :
  400 <= resp_status not_found < 600 /\
  @main http_404_platform lima_request with_key [] =
    (Ok (@_error http_404_platform 502 "Failed to reach weather service."),
     [current_call "Lima" "k3y"]).
Proof.
  assert (Hcity : city_of lima_request <> "") by (vm_compute; discriminate).
  assert (Hkey : api_key_of with_key <> "") by (vm_compute; discriminate).
  assert (Hstatus : 400 <= resp_status not_found < 600) by (simpl; lia).
  split; [exact Hstatus|].
  exact (proj1 (@http_error_status_502 http_404_platform lima_request with_key []
                  not_found Hcity Hkey Hstatus) eq_refl).
Defined.

Lemma well_formed_upstream_200_witness :
  exists days r,
    forecast_days five_day_forecast = Ok days /\
    @main lima_platform lima_request with_key [] =
      (Ok r, [current_call "Lima" "k3y"; forecast_call "Lima" "k3y"]) /\
    status_code r = 200.
Proof.
  assert (Hcity : city_of lima_request <> "") by (vm_compute; discriminate).
  assert (Hkey : api_key_of with_key <> "") by (vm_compute; discriminate).
  destruct (@well_formed_upstream_200 lima_platform lima_request with_key []
              lima_current five_day_forecast five_day_items
              lima_now
              (JNum (NInt 1714564800)) (JStr "Lima") (JStr "PE")
              Hcity Hkey eq_refl eq_refl eq_refl eq_refl eq_refl eq_refl eq_refl eq_refl
              five_day_items_well_formed)
    as (days & r & Hdays & Hmain & Hstatus & _).
  exists days, r. repeat split; assumption.
Defined.

Lemma missing_field_raises_witness :
  dict_get no_dt_current "dt" = None /\
  _normalize no_dt_current five_day_forecast = Raise PyError.
Proof.
  split; [vm_compute; reflexivity|].
  apply (missing_field_raises no_dt_current five_day_forecast "dt").
  - vm_compute. right; right; right; left; reflexivity.
  - vm_compute; reflexivity.
Defined.

Lemma normalize_failure_escapes_witness :
  @main no_dt_platform lima_request with_key [] =
    (Raise PyError, [current_call "Lima" "k3y"; forecast_call "Lima" "k3y"]).
Proof.
  assert (Hcity : city_of lima_request <> "") by (vm_compute; discriminate).
  assert (Hkey : api_key_of with_key <> "") by (vm_compute; discriminate).
  apply (@normalize_failure_escapes no_dt_platform lima_request with_key []
           no_dt_current five_day_forecast PyError Hcity Hkey eq_refl eq_refl eq_refl).
  vm_compute; reflexivity.
Defined.

Lemma status_tells_cause_witness :
  exists current forecast n,
    fst (@_fetch_current lima_platform (city_of lima_request) (api_key_of with_key) []) =
      Ok current /\
    fst (@_fetch_forecast lima_platform (city_of lima_request) (api_key_of with_key)
           [current_call (city_of lima_request) (api_key_of with_key)]) = Ok forecast /\
    dict_get current "cod" = Some (JNum n) /\ (num_val n == inject_Z 200)%Q.
Proof.
  assert (Hrun : fst (@main lima_platform lima_request with_key []) =
                 Ok {| body := dumps lima_payload; status_code := 200;
                       mimetype := "application/json";
                       headers := [("Access-Control-Allow-Origin", "*")] |})
    by (vm_compute; reflexivity).
  destruct (@status_tells_cause lima_platform lima_request with_key [] _ Hrun)
    as (_ & _ & _ & _ & _ & H200).
  destruct (H200 eq_refl) as (current & forecast & n & (_ & _ & Hc & Hf) & Hcod & Hn).
  exists current, forecast, n. repeat split; assumption.
Defined.

Lemma forecast_days_date_by_date_witness :
  forecast_days five_day_forecast =
  if forallb dated five_day_items
  then mapM (fun d => day_entry d (readings_of five_day_items d))
            (first_five_dates five_day_items)
  else Raise PyError.
Proof.
  apply (forecast_days_date_by_date five_day_forecast five_day_items).
  reflexivity.
Defined.

Lemma later_dates_not_read_witness :
  forallb dated six_day_items = true /\
  ~ well_formed_reading (JObj [("dt_txt", JStr "2024-05-06 12:00:00")]) /\
  exists days,
    forecast_days six_day_forecast = Ok days /\
    entry_dates days = map Some (first_five_dates six_day_items).
Proof.
  split; [vm_compute; reflexivity|]. split.
  - intros (s & lo & hi & desc & icon & _ & Hlo & _). vm_compute in Hlo. discriminate.
  - apply (later_dates_not_read six_day_forecast six_day_items).
    + reflexivity.
    + vm_compute; reflexivity.
    + intros d r Hd Hr. vm_compute in Hd.
      repeat (destruct Hd as [<-|Hd]; [vm_compute in Hr; destruct Hr as [<-|[]];
                do 5 eexists; repeat split; vm_compute; reflexivity|]).
      destruct Hd.
Defined.

Lemma forecast_length_witness :
  exists days,
    getitem lima_payload "forecast" = Ok (JArr days) /\
    List.length days = Nat.min 5 (List.length (distinct_dates five_day_items)).
Proof.
  apply (forecast_length lima_current five_day_forecast five_day_items lima_payload).
  - reflexivity.
  - vm_compute; reflexivity.
Defined.

Lemma day_range_bounds_witness :
  forecast_list five_day_forecast five_day_items /\
  _normalize lima_current five_day_forecast = Ok lima_payload /\
  Forall (fun e =>
    exists d zlo zhi rs,
      field e "date" (JStr d) /\
      field e "min" (JNum (NInt zlo)) /\
      field e "max" (JNum (NInt zhi)) /\
      picked (dated_at d) five_day_items rs /\
      (exists r lo, In r rs /\ temp_of "temp_min" r lo /\
                    rounds_half_even (num_val lo) zlo) /\
      (exists r hi, In r rs /\ temp_of "temp_max" r hi /\
                    rounds_half_even (num_val hi) zhi) /\
      (forall r lo z, In r rs -> temp_of "temp_min" r lo ->
                      rounds_half_even (num_val lo) z -> zlo <= z) /\
      (forall r hi z, In r rs -> temp_of "temp_max" r hi ->
                      rounds_half_even (num_val hi) z -> z <= zhi))
    lima_days.
Proof.
  assert (Hlist : forecast_list five_day_forecast five_day_items)
    by (left; apply member_dict_get; reflexivity).
  assert (Hrun : _normalize lima_current five_day_forecast = Ok lima_payload)
    by (vm_compute; reflexivity).
  split; [exact Hlist|]. split; [exact Hrun|].
  destruct (day_range_bounds lima_current five_day_forecast five_day_items lima_payload
              Hlist Hrun) as (days & Hfield & Hall).
  assert (Edays : JArr days = JArr lima_days).
  { apply (field_unique lima_payload "forecast"); [exact Hfield|].
    apply getitem_field. reflexivity. }
  injection Edays as ->. exact Hall.
Defined.

Lemma same_items_same_ranges_witness :
  five_day_items_reordered <> five_day_items /\
  exists days days',
    getitem lima_payload "forecast" = Ok (JArr days) /\
    getitem reordered_payload "forecast" = Ok (JArr days') /\
    map entry_range days = map entry_range days'.
Proof.
  split; [vm_compute; discriminate|].
  apply (same_items_same_ranges lima_current lima_current
           five_day_forecast five_day_forecast_reordered
           five_day_items five_day_items_reordered).
  - reflexivity.
  - reflexivity.
  - intro r. apply in_rev.
  - vm_compute; reflexivity.
  - vm_compute; reflexivity.
Defined.

Lemma now_block_witness :
  _normalize lima_current five_day_forecast = Ok lima_payload /\
  temp_of "temp" (JObj lima_current) (NFloat (71 # 4)) /\
  temp_of "feels_like" (JObj lima_current) (NFloat (69 # 4)) /\
  field lima_payload "now"
    (JObj [("temp", JNum (NInt 18));
           ("feels_like", JNum (NInt 17));
           ("desc", JStr "Light rain");
           ("icon", JStr "10d");
           ("humidity", JNum (NInt 72));
           ("wind", JNum (NFloat (36 # 10)))]) /\
  rounds_half_even (71 # 4) 18 /\
  rounds_half_even (69 # 4) 17 /\
  rounds_half_even ((29 # 8) * inject_Z 10) 36 /\
  field lima_payload "city" (JStr "Lima") /\
  field lima_payload "country" (JStr "PE").
Proof.
  assert (Hrun : _normalize lima_current five_day_forecast = Ok lima_payload)
    by (vm_compute; reflexivity).
  assert (Htemp0 : temp_of "temp" (JObj lima_current) (NFloat (71 # 4))).
  { do 2 eexists. split; [apply getitem_field; reflexivity|].
    split; [apply getitem_field; reflexivity | left; reflexivity]. }
  assert (Hfeels0 : temp_of "feels_like" (JObj lima_current) (NFloat (69 # 4))).
  { do 2 eexists. split; [apply getitem_field; reflexivity|].
    split; [apply getitem_field; reflexivity | left; reflexivity]. }
  split; [exact Hrun|]. split; [exact Htemp0|]. split; [exact Hfeels0|].
  destruct (now_block lima_current five_day_forecast lima_payload Hrun)
    as (temp & feels & speed & raw & icon & humidity & t & f & w
        & Htemp & Hfeels & (wind & s & Hwind & Hs & Hspeed) & _ & _
        & Hnow & Ht & Hf & _ & Hw & (name & Hname & Hcity)
        & (sys & country & Hsys & Hcountry & Hpc)).
  rewrite (temp_of_unique _ _ _ _ Htemp Htemp0) in Ht.
  rewrite (temp_of_unique _ _ _ _ Hfeels Hfeels0) in Hf.
  assert (Enow : JObj [("temp", JNum (NInt t)); ("feels_like", JNum (NInt f));
                       ("desc", JStr (str_capitalize raw)); ("icon", icon);
                       ("humidity", humidity); ("wind", JNum w)] = lima_now).
  { apply (field_unique lima_payload "now"); [exact Hnow|].
    apply getitem_field. reflexivity. }
  rewrite Enow in Hnow.
  injection Enow as Et Ef _ _ _ Ew. subst t f w.
  apply member_dict_get in Hwind. vm_compute in Hwind. injection Hwind as <-.
  apply getitem_field in Hs. vm_compute in Hs. injection Hs as <-.
  assert (Espeed : speed = NFloat (29 # 8)).
  { apply (numeric_unique (JNum (NFloat (29 # 8)))); [exact Hspeed|].
    left; reflexivity. }
  destruct (Hw _ Espeed) as (k & Hk & Ek).
  injection Ek as <-.
  apply member_dict_get in Hname. vm_compute in Hname. injection Hname as <-.
  apply member_dict_get in Hsys. vm_compute in Hsys. injection Hsys as <-.
  apply getitem_field in Hcountry. vm_compute in Hcountry. injection Hcountry as <-.
  split; [exact Hnow|]. split; [exact Ht|]. split; [exact Hf|]. split; [exact Hk|].
  split; [exact Hcity | exact Hpc].
Defined.

Example not_modified_is_let_through :
  @fetch not_modified_platform (current_call "Lima" "k3y") [] =
    (Ok lima_current, [current_call "Lima" "k3y"]).
Proof. reflexivity. Qed.

Lemma grouping_keeps_items_witness :
  map fst five_day_groups =
    ["2024-05-03"; "2024-05-01"; "2024-05-05"; "2024-05-02"; "2024-05-04"] /\
  Permutation (List.concat (map snd five_day_groups)) five_day_items.
Proof.
  split; [vm_compute; reflexivity|].
  apply (grouping_keeps_items five_day_items five_day_groups).
  vm_compute; reflexivity.
Defined.

End FurtherFixtures.
